(** * The ACM health-risk scoring engine of rn-health (utils/acmCalculator)

    A shallow embedding of [calculateACMScore] and of the functions it is
    built from.  A JavaScript [number] is an IEEE 754 binary64 value, so the
    embedding computes on Rocq's primitive floats: every comparison,
    subtraction, division and product below is the binary64 operation the
    engine performs, and [null] is [None].

    Around the engine, the pure parts of its callers are embedded as well:
    the status of the metric cards, the rings and their captions, the
    callbacks and state updates of the data hook, and the screen's choice
    of view. *)

From Stdlib Require Import Floats ZArith List Bool String Lia.
Import ListNotations.

Set Warnings "-inexact-float".

Open Scope float_scope.

(** ** JavaScript numbers *)

Module JS.

Definition number := float.

(** [a >= b] and [a > b]: IEEE comparisons, false as soon as one side is NaN. *)
Definition geb (a b : number) : bool := b <=? a.
Definition gtb (a b : number) : bool := b <? a.

(** ToBoolean on a number: [+0], [-0] and [NaN] are falsy. *)
Definition truthy (x : number) : bool := negb (is_zero x || is_nan x).

(** [Math.min] and [Math.max]: NaN is contagious and [-0] is below [+0]. *)
Definition Math_min (a b : number) : number :=
  if is_nan a || is_nan b then nan
  else if a <? b then a
  else if b <? a then b
  else match classify a with NZero => a | _ => b end.

Definition Math_max (a b : number) : number :=
  if is_nan a || is_nan b then nan
  else if a <? b then b
  else if b <? a then a
  else match classify a with PZero => a | _ => b end.

Definition Math_abs (x : number) : number := abs x.

(** An integer of absolute value at most 2^53 as a number. *)
Definition of_Z (n : Z) : number :=
  match n with
  | Z0 => zero
  | Zpos _ => of_uint63 (Uint63.of_Z n)
  | Zneg p => - of_uint63 (Uint63.of_Z (Zpos p))
  end.

(** [Math.round]: the integer nearest to [x], ties towards +infinity, that
    is floor(x + 1/2) computed exactly; NaN, the infinities, the zeros and
    the integers are returned as they are, and a result of zero keeps the
    sign of [x].  With [x = (-1)^s * m * 2^e] and [e < 0],
    [x + 1/2 = ((-1)^s * 2m + 2^(-e)) / 2^(1-e)]. *)
Definition Math_round (x : number) : number :=
  match Prim2SF x with
  | S754_finite s m e =>
      if (0 <=? e)%Z then x
      else
        let twice := if s then Zneg (m~0) else Zpos (m~0) in
        let n := Z.shiftr (twice + 2 ^ (- e)) (1 - e) in
        match n with
        | Z0 => if s then neg_zero else zero
        | _ => of_Z n
        end
  | _ => x
  end.

(** [xs.push(x)] *)
Definition push {A} (xs : list A) (x : A) : list A := xs ++ [x].

(** [xs.length] as a number *)
Definition length_num {A} (xs : list A) : number :=
  of_Z (Z.of_nat (List.length xs)).

End JS.

Import JS.

Infix ">=?" := geb (at level 70) : float_scope.
Infix ">?" := gtb (at level 70) : float_scope.

(** ** Data model *)

Inductive BiologicalSex := male | female | other.

Definition is_male (s : option BiologicalSex) : bool :=
  match s with Some male => true | _ => false end.

(** [HealthData] of hooks/useHealthData: every reading is [number | null]. *)
Record HealthData := mkHealthData {
  stepCount : option number;
  heartRate : option number;
  weight : option number;
  height : option number;
  bloodPressureSystolic : option number;
  bloodPressureDiastolic : option number;
  bmi : option number;
  restingHeartRate : option number;
  activeEnergyBurned : option number;
  age : option number;
  biologicalSex : option BiologicalSex
}.

Inductive RiskLevel := low | moderate | high | very_high.

Record Breakdown := mkBreakdown {
  cardiovascular : number;
  metabolic : number;
  activity : number;
  lifestyle : number
}.

Record ACMScore := mkACMScore {
  overall : number;
  breakdown : Breakdown;
  riskLevel : RiskLevel;
  recommendations : list string
}.

(** The snapshot the hook starts from: every field [null]. *)
Definition emptyData : HealthData :=
  mkHealthData None None None None None None None None None None None.

(** Truthiness of a [number | null] field, as in [if (data.bmi)]. *)
Definition present (o : option number) : bool :=
  match o with Some x => truthy x | None => false end.

(** Truthiness of [data.biologicalSex]: the three tags are non-empty strings. *)
Definition presentSex (o : option BiologicalSex) : bool :=
  match o with Some _ => true | None => false end.

(** The value read from a field that was tested present; the default is
    never used. *)
Definition the (o : option number) : number :=
  match o with Some x => x | None => nan end.

(** ** The module's table of risk bands

    [RISK_FACTORS.bmi]: the BMI bands the module declares. *)

Record Band := mkBand { band_min : number; band_max : number }.

Module RISK_FACTORS.
Module bmi.
Definition underweight := mkBand 0 18.5.
Definition normal := mkBand 18.5 25.
Definition overweight := mkBand 25 30.
Definition obese := mkBand 30 100.
End bmi.
End RISK_FACTORS.

(** ** Sub-scorers

    Each scorer threads the mutable [score] through its rules; a rule is a
    function from the score before to the score after. *)

Definition clamp (score : number) : number := Math_max 0 (Math_min 100 score).

(** *** Cardiovascular *)

Definition restingHeartRateRule (rhr score : number) : number :=
  let score :=
    if rhr >=? 100 then score - 25
    else if rhr >=? 80 then score - 15
    else if rhr >=? 70 then score - 8
    else if rhr >=? 60 then score - 2
    else score in
  if (rhr >=? 40) && (rhr <=? 55) then score + 5 else score.

Definition calculateCardiovascularScore (data : HealthData) : number :=
  let score := 100 in
  let score :=
    if present (restingHeartRate data)
    then restingHeartRateRule (the (restingHeartRate data)) score
    else score in
  let score :=
    if present (heartRate data) && present (restingHeartRate data) then
      let heartRateVariability :=
        Math_abs (the (heartRate data) - the (restingHeartRate data)) in
      if heartRateVariability >? 30 then score - 10 else score
    else score in
  clamp score.

(** *** Metabolic *)

(** The chain applied to [data.bmi]. *)
Definition bmiRule (bmi score : number) : number :=
  if bmi <? 18.5 then score - 15
  else if bmi >=? 30 then score - 30
  else if bmi >=? 25 then score - 15
  else if (bmi >=? 18.5) && (bmi <=? 24.9) then score + 10
  else score.

(** The chain applied to the BMI computed from weight and height. *)
Definition calculatedBmiRule (calculatedBMI score : number) : number :=
  if calculatedBMI <? 18.5 then score - 15
  else if calculatedBMI >=? 30 then score - 30
  else if calculatedBMI >=? 25 then score - 15
  else score + 10.

Definition calculatedBMI (weight height : number) : number :=
  let heightInM := height / 100 in
  weight / (heightInM * heightInM).

Definition idealWeight (height : number) (sex : option BiologicalSex) : number :=
  let heightInM := height / 100 in
  if is_male sex then (heightInM - 1) * 100 * 0.9
  else (heightInM - 1) * 100 * 0.85.

Definition weightRule (weight idealWeight score : number) : number :=
  let weightDifference := Math_abs (weight - idealWeight) / idealWeight in
  if weightDifference >? 0.3 then score - 20
  else if weightDifference >? 0.15 then score - 10
  else score.

Definition calculateMetabolicScore (data : HealthData) : number :=
  let score := 100 in
  let score :=
    if present (bmi data) then bmiRule (the (bmi data)) score
    else if present (weight data) && present (height data) then
      calculatedBmiRule
        (calculatedBMI (the (weight data)) (the (height data))) score
    else score in
  let score :=
    if present (weight data) && present (height data)
       && present (age data) && presentSex (biologicalSex data)
    then weightRule (the (weight data))
           (idealWeight (the (height data)) (biologicalSex data)) score
    else score in
  clamp score.

(** *** Activity *)

Definition stepRule (steps score : number) : number :=
  if steps <? 3000 then score - 40
  else if steps <? 5000 then score - 25
  else if steps <? 7000 then score - 10
  else if steps >=? 10000 then score + 15
  else if steps >=? 12000 then score + 20
  else score.

Definition targetCaloriesOf (data : HealthData) : number :=
  let targetCalories := 300 in
  if present (age data) && presentSex (biologicalSex data) then
    let targetCalories :=
      if the (age data) <? 30 then 400
      else if the (age data) <? 50 then 350
      else 250 in
    if is_male (biologicalSex data) then targetCalories * 1.2
    else targetCalories
  else targetCalories.

Definition calorieRule (calorieRatio score : number) : number :=
  if calorieRatio <? 0.3 then score - 30
  else if calorieRatio <? 0.6 then score - 15
  else if calorieRatio >=? 1.2 then score + 15
  else if calorieRatio >=? 1.5 then score + 20
  else score.

Definition calculateActivityScore (data : HealthData) : number :=
  let score := 100 in
  let score :=
    match stepCount data with
    | Some steps => stepRule steps score
    | None => score
    end in
  let score :=
    match activeEnergyBurned data with
    | Some calories =>
        let calorieRatio := calories / targetCaloriesOf data in
        calorieRule calorieRatio score
    | None => score
    end in
  clamp score.

(** *** Lifestyle *)

Definition ageRule (age score : number) : number :=
  if age >=? 65 then score - 15
  else if age >=? 50 then score - 8
  else if age <? 25 then score - 5
  else score.

Definition healthMetrics (data : HealthData) : list (option number) :=
  [ stepCount data; heartRate data; weight data; height data;
    restingHeartRate data; activeEnergyBurned data ].

(** The body of the [forEach] callback: [metric !== null && metric > 0]. *)
Definition countMetric (dataCompleteness : number) (metric : option number)
  : number :=
  match metric with
  | Some m => if m >? 0 then dataCompleteness + 1 else dataCompleteness
  | None => dataCompleteness
  end.

Definition dataCompletenessOf (data : HealthData) : number :=
  fold_left countMetric (healthMetrics data) 0.

Definition calculateLifestyleScore (data : HealthData) : number :=
  let score := 100 in
  let score :=
    if present (age data) then ageRule (the (age data)) score else score in
  let score := if is_male (biologicalSex data) then score - 5 else score in
  let completenessRatio :=
    dataCompletenessOf data / length_num (healthMetrics data) in
  let score := if completenessRatio >=? 0.8 then score + 10 else score in
  clamp score.

(** ** Aggregation *)

Definition applyDemographicAdjustments (score : number) (data : HealthData)
  : number :=
  let adjustedScore := score in
  let adjustedScore :=
    if present (age data) then
      let age := the (age data) in
      let ageMultiplier :=
        if age >=? 65 then 0.85
        else if age >=? 50 then 0.9
        else if age >=? 30 then 0.95
        else 1.0 in
      adjustedScore * ageMultiplier
    else adjustedScore in
  clamp adjustedScore.

Definition determineRiskLevel (score : number) : RiskLevel :=
  if score >=? 85 then low
  else if score >=? 70 then moderate
  else if score >=? 50 then high
  else very_high.

(** ** Recommendations *)

Definition recLowerRestingHeartRate : string := "🏃‍♂️ 增加有氧运动，降低静息心率".
Definition recMonitorHeart : string := "❤️ 定期监测血压和心率".
Definition recControlWeight : string := "⚖️ 控制体重，保持健康BMI".
Definition recBalancedDiet : string := "🥗 注意饮食平衡，减少加工食品".
Definition recMoreSteps : string := "🚶‍♀️ 增加日常步数，目标每天10000步".
Definition recStrengthTraining : string := "💪 加入力量训练，每周2-3次".
Definition recSleep : string := "😴 保证充足睡眠，每天7-9小时".
Definition recStress : string := "🧘‍♀️ 学习压力管理技巧".
Definition recKeepItUp : string := "🌟 继续保持健康的生活方式！".
Definition recKeepMonitoring : string := "📊 定期监测健康指标".

Definition generateRecommendations (data : HealthData) (breakdown : Breakdown)
  : list string :=
  let recommendations := [] in
  let recommendations :=
    if cardiovascular breakdown <? 70 then
      let recommendations :=
        if present (restingHeartRate data) && (the (restingHeartRate data) >? 80)
        then push recommendations recLowerRestingHeartRate
        else recommendations in
      push recommendations recMonitorHeart
    else recommendations in
  let recommendations :=
    if metabolic breakdown <? 70 then
      let recommendations :=
        if present (bmi data) && (the (bmi data) >? 25)
        then push recommendations recControlWeight
        else recommendations in
      push recommendations recBalancedDiet
    else recommendations in
  let recommendations :=
    if activity breakdown <? 70 then
      let recommendations :=
        match stepCount data with
        | Some steps =>
            if steps <? 7000 then push recommendations recMoreSteps
            else recommendations
        | None => recommendations
        end in
      push recommendations recStrengthTraining
    else recommendations in
  let recommendations :=
    if lifestyle breakdown <? 70 then
      push (push recommendations recSleep) recStress
    else recommendations in
  let recommendations :=
    if Nat.eqb (List.length recommendations) 0 then
      push (push recommendations recKeepItUp) recKeepMonitoring
    else recommendations in
  firstn 4 recommendations.

(** ** The engine *)

Definition weightedScoreOf (cardiovascular metabolic activity lifestyle : number)
  : number :=
  cardiovascular * 0.35 + metabolic * 0.25 + activity * 0.25 + lifestyle * 0.15.

Definition calculateACMScore (data : HealthData) : ACMScore :=
  let cardiovascular := calculateCardiovascularScore data in
  let metabolic := calculateMetabolicScore data in
  let activity := calculateActivityScore data in
  let lifestyle := calculateLifestyleScore data in
  let weightedScore := weightedScoreOf cardiovascular metabolic activity lifestyle in
  let adjustedScore := applyDemographicAdjustments weightedScore data in
  let breakdown :=
    mkBreakdown (Math_round cardiovascular) (Math_round metabolic)
                (Math_round activity) (Math_round lifestyle) in
  let overall := Math_round adjustedScore in
  let riskLevel := determineRiskLevel overall in
  let recommendations := generateRecommendations data breakdown in
  mkACMScore overall breakdown riskLevel recommendations.

(** ** Presentation helpers *)

Definition getScoreColor (score : number) : string :=
  if score >=? 85 then "#10B981"
  else if score >=? 70 then "#F59E0B"
  else if score >=? 50 then "#EF4444"
  else "#DC2626".

Definition getRiskLevelDescription (riskLevel : RiskLevel) : string :=
  match riskLevel with
  | low => "低风险"
  | moderate => "中等风险"
  | high => "高风险"
  | very_high => "极高风险"
  end.


(** ** Snapshots and updates used in the statements *)

(** [{ ...data, restingHeartRate: v }] and its likes. *)
Definition setRestingHeartRate (v : option number) (data : HealthData)
  : HealthData :=
  mkHealthData (stepCount data) (heartRate data) (weight data) (height data)
    (bloodPressureSystolic data) (bloodPressureDiastolic data) (bmi data)
    v (activeEnergyBurned data) (age data) (biologicalSex data).

Definition setHeartRate (v : option number) (data : HealthData) : HealthData :=
  mkHealthData (stepCount data) v (weight data) (height data)
    (bloodPressureSystolic data) (bloodPressureDiastolic data) (bmi data)
    (restingHeartRate data) (activeEnergyBurned data) (age data)
    (biologicalSex data).

Definition setBmi (v : option number) (data : HealthData) : HealthData :=
  mkHealthData (stepCount data) (heartRate data) (weight data) (height data)
    (bloodPressureSystolic data) (bloodPressureDiastolic data) v
    (restingHeartRate data) (activeEnergyBurned data) (age data)
    (biologicalSex data).

(** A snapshot holding nothing but a step count, or an active-energy value. *)
Definition stepsOnly (steps : number) : HealthData :=
  mkHealthData (Some steps) None None None None None None None None None None.

Definition energyOnly (calories : number) : HealthData :=
  mkHealthData None None None None None None None None (Some calories) None None.

(** A woman of 40 of the given height (cm) and weight (kg), bmi not given. *)
Definition heightOnly (h w : number) : HealthData :=
  mkHealthData None None (Some w) (Some h) None None None None None
    (Some 40) (Some female).

(** 99.8 kg at 200 cm: a computed BMI of 24.95, between 24.9 and 25. *)
Definition bmiGapData : HealthData := heightOnly 200 99.8.

(** ** Predicates on results *)

Definition inRange (x : number) : bool := (0 <=? x) && (x <=? 100).

(** A number that [Math.round] leaves alone and that is not NaN. *)
Definition isInteger (x : number) : bool :=
  Leibniz.eqb (Math_round x) x && (x =? x).

Definition scoreOk (x : number) : bool := inRange x && isInteger x.

(** A complete result: five integer scores in [0,100] (so none of them NaN
    or infinite) and one to four recommendations; the risk level is one of
    the four tiers by its type. *)
Definition isComplete (r : ACMScore) : bool :=
  scoreOk (overall r)
  && scoreOk (cardiovascular (breakdown r))
  && scoreOk (metabolic (breakdown r))
  && scoreOk (activity (breakdown r))
  && scoreOk (lifestyle (breakdown r))
  && Nat.leb 1 (List.length (recommendations r))
  && Nat.leb (List.length (recommendations r)) 4.

(** ** The values a sub-score can take

    Every rule adds a constant to the score or leaves it alone, so a
    sub-score is one of finitely many numbers whatever the readings are. *)

Definition cardiovascularValues : list number :=
  [100; 98; 97; 95; 93; 92; 90; 88; 87; 85; 82; 80; 75; 70; 65].

Definition metabolicValues : list number :=
  [100; 90; 85; 80; 75; 70; 65; 60; 50].

Definition activityValues : list number :=
  [100; 95; 90; 85; 80; 75; 70; 60; 45; 30].

Definition lifestyleValues : list number :=
  [100; 97; 95; 92; 90; 87; 85; 80].

(** The products [applyDemographicAdjustments] can clamp. *)
Definition adjustedCandidates (score : number) : list number :=
  [score; score * 0.85; score * 0.9; score * 0.95; score * 1.0].

(** [p] holds of every weighted score built from the values above. *)
Definition forallWeighted (p : number -> bool) : bool :=
  forallb (fun c =>
  forallb (fun m =>
  forallb (fun a =>
  forallb (fun l => p (weightedScoreOf c m a l))
    lifestyleValues) activityValues) metabolicValues) cardiovascularValues.

(** ** The activity scorer without its two [+20] branches

    [calculateActivityScore] as it reads once the tests for 12000 steps and
    for a ratio of 1.5 are taken out of its chains. *)
Definition activityScoreWithoutTopTiers (data : HealthData) : number :=
  let score := 100 in
  let score :=
    match stepCount data with
    | Some steps =>
        if steps <? 3000 then score - 40
        else if steps <? 5000 then score - 25
        else if steps <? 7000 then score - 10
        else if steps >=? 10000 then score + 15
        else score
    | None => score
    end in
  let score :=
    match activeEnergyBurned data with
    | Some calories =>
        let calorieRatio := calories / targetCaloriesOf data in
        if calorieRatio <? 0.3 then score - 30
        else if calorieRatio <? 0.6 then score - 15
        else if calorieRatio >=? 1.2 then score + 15
        else score
    | None => score
    end in
  clamp score.

(** 15000 steps with no active energy burned, and no steps with 1000 kcal. *)
Definition manyStepsNoEnergy : HealthData :=
  mkHealthData (Some 15000) None None None None None None None (Some 0)
    None None.

Definition noStepsMuchEnergy : HealthData :=
  mkHealthData (Some 0) None None None None None None None (Some 1000)
    None None.

(** ** The specification's wording of three stages *)

(** The age multiplier: 0.85 from 65, 0.9 from 50, 0.95 from 30, else 1.0,
    also when age is absent. *)
Definition ageMultiplier (age : option number) : number :=
  match age with
  | Some a =>
      if a >=? 65 then 0.85
      else if a >=? 50 then 0.9
      else if a >=? 30 then 0.95
      else 1.0
  | None => 1.0
  end.

(** The colour of a tier. *)
Definition tierColor (tier : RiskLevel) : string :=
  match tier with
  | low => "#10B981"
  | moderate => "#F59E0B"
  | high => "#EF4444"
  | very_high => "#DC2626"
  end.

(** The recommendations: one block of tips per dimension below 70, in the
    order cardiovascular, metabolic, activity, lifestyle; the two generic
    strings when no block fired; at most four entries. *)

Definition above (reading : option number) (limit : number) : bool :=
  match reading with Some x => x >? limit | None => false end.

Definition below (reading : option number) (limit : number) : bool :=
  match reading with Some x => x <? limit | None => false end.

Definition dimensionTips (score : number) (threshold : bool)
    (specific general : string) : list string :=
  if score <? 70
  then (if threshold then [specific] else []) ++ [general]
  else [].

Definition specRecommendations (data : HealthData) (b : Breakdown)
  : list string :=
  let tips :=
    dimensionTips (cardiovascular b) (above (restingHeartRate data) 80)
      recLowerRestingHeartRate recMonitorHeart
    ++ dimensionTips (metabolic b) (above (bmi data) 25)
      recControlWeight recBalancedDiet
    ++ dimensionTips (activity b) (below (stepCount data) 7000)
      recMoreSteps recStrengthTraining
    ++ (if lifestyle b <? 70 then [recSleep; recStress] else []) in
  firstn 4
    (match tips with
     | [] => [recKeepItUp; recKeepMonitoring]
     | _ :: _ => tips
     end).

(** ** Bounds of the engine's output, for the statements *)

(** The lowest overall score: resting heart rate 110 against a heart rate
    of 60, a BMI of 35 at 120 kg and 170 cm, no steps and no active energy,
    a man of 70. *)
Definition worstData : HealthData :=
  mkHealthData (Some 0) (Some 60) (Some 120) (Some 170) None None (Some 35)
    (Some 110) (Some 0) (Some 70) (Some male).

(** The lifestyle scores left to an age of 65 or more. *)
Definition seniorLifestyleValues : list number := [95; 90; 85; 80].

(** The values [targetCalories] can take. *)
Definition targetCaloriesValues : list number := [300; 400; 350; 250; 480; 420].

(** [p] holds of every weighted score built from the given sub-scores. *)
Definition forallScores (cs ms acts ls : list number) (p : number -> bool)
  : bool :=
  forallb (fun c =>
  forallb (fun m =>
  forallb (fun a =>
  forallb (fun l => p (weightedScoreOf c m a l)) ls) acts) ms) cs.

(** The metrics of [healthMetrics] that are non-null and above zero. *)
Definition isPositiveMetric (metric : option number) : bool :=
  match metric with Some m => m >? 0 | None => false end.

Definition positiveMetrics (data : HealthData) : nat :=
  List.length (filter isPositiveMetric (healthMetrics data)).

(** A list of strings without repetition. *)
Fixpoint distinct (xs : list string) : bool :=
  match xs with
  | [] => true
  | x :: rest => negb (existsb (String.eqb x) rest) && distinct rest
  end.

(** [{ ...data, bloodPressureSystolic: s, bloodPressureDiastolic: d }] and
    [{ ...data, biologicalSex: v }]. *)
Definition setBloodPressure (systolic diastolic : option number)
    (data : HealthData) : HealthData :=
  mkHealthData (stepCount data) (heartRate data) (weight data) (height data)
    systolic diastolic (bmi data) (restingHeartRate data)
    (activeEnergyBurned data) (age data) (biologicalSex data).

Definition setBiologicalSex (v : option BiologicalSex) (data : HealthData)
  : HealthData :=
  mkHealthData (stepCount data) (heartRate data) (weight data) (height data)
    (bloodPressureSystolic data) (bloodPressureDiastolic data) (bmi data)
    (restingHeartRate data) (activeEnergyBurned data) (age data) v.

(** ** The metric cards (components/ScreenContent, components/HealthMetricCard) *)

Inductive MetricStatus := excellent | good | fair | poor | unknown.

Definition getMetricStatus (value : option number) (type : string)
  : MetricStatus :=
  match value with
  | None => unknown
  | Some value =>
      if String.eqb type "restingHeartRate" then
        if value <=? 60 then excellent
        else if value <=? 70 then good
        else if value <=? 80 then fair
        else poor
      else if String.eqb type "bmi" then
        if (value >=? 18.5) && (value <=? 24.9) then excellent
        else if (value >=? 25) && (value <=? 29.9) then fair
        else poor
      else if String.eqb type "stepCount" then
        if value >=? 10000 then excellent
        else if value >=? 7000 then good
        else if value >=? 5000 then fair
        else poor
      else if String.eqb type "activeEnergy" then
        if value >=? 400 then excellent
        else if value >=? 300 then good
        else if value >=? 200 then fair
        else poor
      else unknown
  end.

Record StatusStyle := mkStatusStyle {
  color : string;
  bgColor : string;
  label : string
}.

Definition statusConfig (status : MetricStatus) : StatusStyle :=
  match status with
  | excellent => mkStatusStyle "#10B981" "#D1FAE5" "优秀"
  | good => mkStatusStyle "#059669" "#ECFDF5" "良好"
  | fair => mkStatusStyle "#F59E0B" "#FEF3C7" "一般"
  | poor => mkStatusStyle "#EF4444" "#FEE2E2" "需要改善"
  | unknown => mkStatusStyle "#6B7280" "#F3F4F6" "暂无数据"
  end.

(** ** The score rings (components/HealthScoreRing) *)

(** Truthiness of an optional string: [undefined] and the empty string are
    falsy. *)
Definition truthyString (s : option string) : bool :=
  match s with Some s => negb (String.eqb s "") | None => false end.

(** [a || b] on an optional string [a]. *)
Definition orElse (a : option string) (b : string) : string :=
  match a with
  | Some s => if truthyString a then s else b
  | None => b
  end.

Record RingBorders := mkRingBorders {
  borderTopColor : string;
  borderRightColor : string;
  borderBottomColor : string;
  borderLeftColor : string
}.

Definition transparent : string := "transparent".

(** The border colours of the progress ring of [HealthScoreRing]. *)
Definition healthScoreRingBorders (score : ACMScore) : RingBorders :=
  let scorePercentage := overall score in
  let scoreColor := getScoreColor scorePercentage in
  mkRingBorders scoreColor scoreColor
    (if scorePercentage >? 50 then scoreColor else transparent)
    (if scorePercentage >? 75 then scoreColor else transparent).

(** The caption under the ring: four [{test && text}] children, each
    rendering its text when its test holds and nothing otherwise. *)
Definition healthScoreRingCaption (score : ACMScore) : list string :=
  let scorePercentage := overall score in
  (if scorePercentage >=? 85 then ["恭喜！您的健康状况优秀"%string] else [])
  ++ (if (scorePercentage >=? 70) && (scorePercentage <? 85)
      then ["您的健康状况良好"%string] else [])
  ++ (if (scorePercentage >=? 50) && (scorePercentage <? 70)
      then ["您的健康状况需要改善"%string] else [])
  ++ (if scorePercentage <? 50 then ["建议您关注健康状况"%string] else []).

(** The border colours of the progress ring of [MiniHealthRing]. *)
Definition miniHealthRingBorders (score : number) (color : option string)
  : RingBorders :=
  let ringColor := orElse color (getScoreColor score) in
  mkRingBorders ringColor
    (if score >? 25 then ringColor else transparent)
    (if score >? 50 then ringColor else transparent)
    (if score >? 75 then ringColor else transparent).

(** The ring [HealthMetricCard] draws: [color={config.color}]. *)
Definition metricCardRing (status : MetricStatus) (score : number)
  : RingBorders :=
  miniHealthRingBorders score (Some (color (statusConfig status))).

(** The caption of a tier, for the statements. *)
Definition tierCaption (tier : RiskLevel) : string :=
  match tier with
  | low => "恭喜！您的健康状况优秀"
  | moderate => "您的健康状况良好"
  | high => "您的健康状况需要改善"
  | very_high => "建议您关注健康状况"
  end.

(** ** Data acquisition (hooks/useHealthData) *)

Module Hook.

(** A sample of the health store; only its value is read. *)
Record HealthValue := mkHealthValue { value : number }.

(** The outcome of a promise under [Promise.allSettled]. *)
Inductive Settled (A : Type) :=
| fulfilled (value : A)
| rejected (reason : string).
Arguments fulfilled {A} value.
Arguments rejected {A} reason.

(** The callback of a query for one value: [getStepCount], [getLatestWeight],
    [getLatestHeight], [getLatestBmi]. *)
Definition latestValueCallback (error : option string) (result : HealthValue)
  : Settled number :=
  match error with
  | Some e => if truthyString error then rejected e
              else fulfilled (value result)
  | None => fulfilled (value result)
  end.

(** The callback of a query for samples: [getHeartRateSamples],
    [getRestingHeartRateSamples], [getActiveEnergyBurned]; the latest sample
    is the last of the array, and no sample resolves to 0. *)
Definition latestSampleCallback (error : option string)
    (results : option (list HealthValue)) : Settled number :=
  let resolved :=
    match results with
    | Some (first :: rest) => fulfilled (value (last rest first))
    | Some [] | None => fulfilled 0
    end in
  match error with
  | Some e => if truthyString error then rejected e else resolved
  | None => resolved
  end.

(** [settled.status === 'fulfilled' ? settled.value : null] *)
Definition valueOrNull {A} (settled : Settled A) : option A :=
  match settled with
  | fulfilled v => Some v
  | rejected _ => None
  end.

(** The snapshot [fetchAllHealthData] builds from the nine settled queries,
    in the order of its [Promise.allSettled] array. *)
Definition assembleData
    (stepCount heartRate restingHeartRate weight height bmi
       activeEnergyBurned : Settled number)
    (biologicalSex : Settled BiologicalSex) (age : Settled number)
  : HealthData :=
  mkHealthData (valueOrNull stepCount) (valueOrNull heartRate)
    (valueOrNull weight) (valueOrNull height) None None (valueOrNull bmi)
    (valueOrNull restingHeartRate) (valueOrNull activeEnergyBurned)
    (valueOrNull age) (valueOrNull biologicalSex).

Record HealthDataState := mkHealthDataState {
  data : HealthData;
  loading : bool;
  error : option string;
  hasPermissions : bool
}.

Definition initialState : HealthDataState :=
  mkHealthDataState emptyData true None false.

(** The state updates of the hook, each a function of the previous state. *)

Definition permissionDenied : string := "无法获取HealthKit权限".

Definition onInitError (prev : HealthDataState) : HealthDataState :=
  mkHealthDataState (data prev) false (Some permissionDenied) false.

Definition onInitSuccess (prev : HealthDataState) : HealthDataState :=
  mkHealthDataState (data prev) (loading prev) (error prev) true.

Definition onFetchStart (prev : HealthDataState) : HealthDataState :=
  mkHealthDataState (data prev) true None (hasPermissions prev).

Definition onFetchSettled (fetched : HealthData) (prev : HealthDataState)
  : HealthDataState :=
  mkHealthDataState fetched false (error prev) (hasPermissions prev).

End Hook.

(** ** The screen (components/ScreenContent) *)

Inductive ScreenView :=
| LoadingView
| PermissionView
| ErrorView (message : string)
| DashboardView (acmScore : ACMScore).

(** What [ScreenContent] returns for a state of the hook: the tests on
    [loading], [hasPermissions] and [error], in this order. *)
Definition screenContent (state : Hook.HealthDataState) : ScreenView :=
  let acmScore := calculateACMScore (Hook.data state) in
  if Hook.loading state then LoadingView
  else if negb (Hook.hasPermissions state) then PermissionView
  else if truthyString (Hook.error state)
       then ErrorView (match Hook.error state with Some e => e | None => "" end)
  else DashboardView acmScore.

(** ** The order of binary64 numbers

    The comparisons of primitive floats are specified on [spec_float] by
    [SFcompare]; the facts below follow from its definition by cases on the
    shape of the operands (zero, infinity, NaN, finite). *)

Module FloatOrder.

Local Ltac cmp_cases :=
  repeat match goal with
  | |- context [PosDef.Pos.compare_cont Eq ?a ?b] =>
      change (PosDef.Pos.compare_cont Eq a b) with (Pos.compare a b);
      destruct (Pos.compare_spec a b)
  | |- context [Z.compare ?a ?b] => destruct (Z.compare_spec a b)
  end.

Local Ltac finish :=
  simpl; try discriminate; try reflexivity;
  cmp_cases; simpl; intros; try discriminate; try reflexivity;
  subst; try lia.

Local Ltac shapes2 a b :=
  destruct a as [[|]|[|]| |[|] ? ?], b as [[|]|[|]| |[|] ? ?]; finish.

Local Ltac shapes3 a b c :=
  destruct a as [[|]|[|]| |[|] ? ?], b as [[|]|[|]| |[|] ? ?],
           c as [[|]|[|]| |[|] ? ?]; finish.

Local Ltac to_spec :=
  unfold geb, gtb;
  rewrite ?FloatAxioms.leb_spec, ?FloatAxioms.ltb_spec, ?FloatAxioms.eqb_spec;
  unfold SFleb, SFltb, SFeqb.

Lemma leb_trans a b c :
  (a <=? b) = true -> (b <=? c) = true -> (a <=? c) = true.
Proof.
  to_spec. generalize (Prim2SF a) (Prim2SF b) (Prim2SF c).
  intros x y z. shapes3 x y z.
Qed.

Lemma leb_ltb_trans a b c :
  (a <=? b) = true -> (b <? c) = true -> (a <? c) = true.
Proof.
  to_spec. generalize (Prim2SF a) (Prim2SF b) (Prim2SF c).
  intros x y z. shapes3 x y z.
Qed.

Lemma ltb_leb_trans a b c :
  (a <? b) = true -> (b <=? c) = true -> (a <? c) = true.
Proof.
  to_spec. generalize (Prim2SF a) (Prim2SF b) (Prim2SF c).
  intros x y z. shapes3 x y z.
Qed.

Lemma ltb_eqb_trans a b c :
  (a <? b) = true -> (b =? c) = true -> (a <? c) = true.
Proof.
  to_spec. generalize (Prim2SF a) (Prim2SF b) (Prim2SF c).
  intros x y z. shapes3 x y z.
Qed.

Lemma ltb_leb a b : (a <? b) = true -> (a <=? b) = true.
Proof.
  to_spec. generalize (Prim2SF a) (Prim2SF b). intros x y. shapes2 x y.
Qed.

Lemma ltb_not_leb a b : (a <? b) = true -> (b <=? a) = false.
Proof.
  to_spec. generalize (Prim2SF a) (Prim2SF b). intros x y. shapes2 x y.
Qed.

Lemma leb_not_ltb a b : (a <=? b) = true -> (b <? a) = false.
Proof.
  to_spec. generalize (Prim2SF a) (Prim2SF b). intros x y. shapes2 x y.
Qed.

Lemma ltb_number_r a b : (a <? b) = true -> is_nan b = false.
Proof.
  unfold is_nan. to_spec. generalize (Prim2SF a) (Prim2SF b).
  intros x y. shapes2 x y.
Qed.

Lemma ltb_number_l a b : (a <? b) = true -> is_nan a = false.
Proof.
  unfold is_nan. to_spec. generalize (Prim2SF a) (Prim2SF b).
  intros x y. shapes2 x y.
Qed.

Lemma ltb_total a b :
  is_nan a = false -> is_nan b = false -> (a <? b) = false ->
  (b <=? a) = true.
Proof.
  unfold is_nan. to_spec. generalize (Prim2SF a) (Prim2SF b).
  intros x y. shapes2 x y.
Qed.

Lemma leb_number_l a b : (a <=? b) = true -> is_nan a = false.
Proof.
  unfold is_nan. to_spec. generalize (Prim2SF a) (Prim2SF b).
  intros x y. shapes2 x y.
Qed.

Lemma leb_number_r a b : (a <=? b) = true -> is_nan b = false.
Proof.
  unfold is_nan. to_spec. generalize (Prim2SF a) (Prim2SF b).
  intros x y. shapes2 x y.
Qed.

(** On numbers the negation of [<] is [>=], and the negation of [<=] is [>]. *)
Lemma leb_total a b :
  is_nan a = false -> is_nan b = false -> (a <=? b) = false ->
  (b <? a) = true.
Proof.
  unfold is_nan. to_spec. generalize (Prim2SF a) (Prim2SF b).
  intros x y. shapes2 x y.
Qed.

(** A number above a non-negative constant is truthy: it is neither a
    zero nor NaN. *)
Lemma gtb_truthy c x :
  (0 <=? c) = true -> (x >? c) = true -> truthy x = true.
Proof.
  unfold gtb, truthy, is_zero. intros Hc Hx.
  rewrite (ltb_number_r _ _ Hx), orb_false_r.
  destruct (x =? zero) eqn:E; [|reflexivity].
  pose proof (ltb_eqb_trans _ _ _ Hx E) as H1.
  pose proof (leb_ltb_trans _ _ _ Hc H1) as H2.
  vm_compute in H2. discriminate.
Qed.

(** Above the upper bound of a chain means not below any lower bound. *)
Lemma geb_not_ltb lo hi x :
  (lo <=? hi) = true -> (x >=? hi) = true -> (x <? lo) = false.
Proof.
  unfold geb. intros Hc Hx. apply leb_not_ltb.
  exact (leb_trans _ _ _ Hc Hx).
Qed.

Lemma geb_weaken lo hi x :
  (lo <=? hi) = true -> (x >=? hi) = true -> (x >=? lo) = true.
Proof. unfold geb. intros Hc Hx. exact (leb_trans _ _ _ Hc Hx). Qed.

Lemma ltb_not_geb lo hi x :
  (lo <=? hi) = true -> (x <? lo) = true -> (x >=? hi) = false.
Proof.
  unfold geb. intros Hc Hx. apply ltb_not_leb.
  exact (ltb_leb_trans _ _ _ Hx Hc).
Qed.

End FloatOrder.

(** Case analysis on the tests of a branching function, innermost first. *)
Ltac split_branches :=
  repeat (cbn [List.length app Nat.eqb push];
    match goal with
    | |- context [match ?o with Some _ => _ | None => _ end] => destruct o
    | |- context [if ?b then _ else _] =>
        lazymatch b with
        | context [if _ then _ else _] => fail
        | context [match _ with Some _ => _ | None => _ end] => fail
        | _ => destruct b
        end
    end).

Ltac in_values :=
  vm_compute; solve [repeat (first [left; reflexivity | right])].

Lemma cardiovascular_values data :
  In (calculateCardiovascularScore data) cardiovascularValues.
Proof.
  unfold calculateCardiovascularScore, restingHeartRateRule.
  split_branches; in_values.
Qed.

Lemma metabolic_values data :
  In (calculateMetabolicScore data) metabolicValues.
Proof.
  unfold calculateMetabolicScore, bmiRule, calculatedBmiRule, weightRule.
  split_branches; in_values.
Qed.

Lemma activity_values data :
  In (calculateActivityScore data) activityValues.
Proof.
  unfold calculateActivityScore, stepRule, calorieRule.
  split_branches; in_values.
Qed.

Lemma lifestyle_values data :
  In (calculateLifestyleScore data) lifestyleValues.
Proof.
  unfold calculateLifestyleScore, ageRule.
  split_branches; in_values.
Qed.

Lemma adjusted_candidates score data :
  In (applyDemographicAdjustments score data)
     (map clamp (adjustedCandidates score)).
Proof.
  unfold applyDemographicAdjustments, adjustedCandidates.
  split_branches; simpl; auto 10.
Qed.

Lemma forallWeighted_spec p :
  forallWeighted p = true ->
  forall data,
    p (weightedScoreOf (calculateCardiovascularScore data)
         (calculateMetabolicScore data) (calculateActivityScore data)
         (calculateLifestyleScore data)) = true.
Proof.
  unfold forallWeighted. intros H data.
  rewrite forallb_forall in H.
  specialize (H _ (cardiovascular_values data)).
  rewrite forallb_forall in H.
  specialize (H _ (metabolic_values data)).
  rewrite forallb_forall in H.
  specialize (H _ (activity_values data)).
  rewrite forallb_forall in H.
  exact (H _ (lifestyle_values data)).
Qed.

Lemma overall_candidates_ok :
  forallWeighted (fun w =>
    forallb (fun k => scoreOk (Math_round (clamp k))) (adjustedCandidates w))
  = true.
Proof. vm_compute. reflexivity. Qed.

Lemma overall_ok data : scoreOk (overall (calculateACMScore data)) = true.
Proof.
  pose proof (forallWeighted_spec _ overall_candidates_ok data) as H.
  rewrite forallb_forall in H.
  unfold calculateACMScore; cbv zeta; simpl overall.
  set (w := weightedScoreOf _ _ _ _) in *.
  destruct (proj1 (in_map_iff _ _ _) (adjusted_candidates w data))
    as [k [<- Hk]].
  exact (H k Hk).
Qed.

Lemma values_ok (vs : list number) x :
  forallb (fun v => inRange v && scoreOk (Math_round v)) vs = true ->
  In x vs -> inRange x = true /\ scoreOk (Math_round x) = true.
Proof.
  intros H Hx. rewrite forallb_forall in H.
  apply andb_true_iff. exact (H x Hx).
Qed.

Lemma cardiovascular_ok data :
  inRange (calculateCardiovascularScore data) = true /\
  scoreOk (Math_round (calculateCardiovascularScore data)) = true.
Proof.
  apply (values_ok cardiovascularValues); [vm_compute; reflexivity|].
  apply cardiovascular_values.
Qed.

Lemma metabolic_ok data :
  inRange (calculateMetabolicScore data) = true /\
  scoreOk (Math_round (calculateMetabolicScore data)) = true.
Proof.
  apply (values_ok metabolicValues); [vm_compute; reflexivity|].
  apply metabolic_values.
Qed.

Lemma activity_ok data :
  inRange (calculateActivityScore data) = true /\
  scoreOk (Math_round (calculateActivityScore data)) = true.
Proof.
  apply (values_ok activityValues); [vm_compute; reflexivity|].
  apply activity_values.
Qed.

Lemma lifestyle_ok data :
  inRange (calculateLifestyleScore data) = true /\
  scoreOk (Math_round (calculateLifestyleScore data)) = true.
Proof.
  apply (values_ok lifestyleValues); [vm_compute; reflexivity|].
  apply lifestyle_values.
Qed.

Lemma scoreOk_inRange x : scoreOk x = true -> inRange x = true.
Proof. unfold scoreOk. intros H. apply andb_true_iff in H. tauto. Qed.

(** ** Range of the result *)

(** C1: for every snapshot the result of [calculateACMScore] has
    [0 <= overall <= 100] and each of the four breakdown fields in [0,100],
    and every sub-score is already clamped to [0,100] when its scorer
    returns it, before it is rounded into the breakdown. *)
Theorem C1_scores_in_range (data : HealthData) :
  let r := calculateACMScore data in
  inRange (overall r) = true /\
  (inRange (cardiovascular (breakdown r)) = true /\
   inRange (metabolic (breakdown r)) = true /\
   inRange (activity (breakdown r)) = true /\
   inRange (lifestyle (breakdown r)) = true) /\
  (inRange (calculateCardiovascularScore data) = true /\
   inRange (calculateMetabolicScore data) = true /\
   inRange (calculateActivityScore data) = true /\
   inRange (calculateLifestyleScore data) = true).
Proof.
  cbv zeta. split; [apply scoreOk_inRange, overall_ok|].
  unfold calculateACMScore; cbv zeta; simpl breakdown.
  simpl cardiovascular; simpl metabolic; simpl activity; simpl lifestyle.
  destruct (cardiovascular_ok data), (metabolic_ok data),
    (activity_ok data), (lifestyle_ok data).
  repeat split; auto using scoreOk_inRange.
Qed.

(** ** Recommendations: proofs *)

Lemma present_above reading limit :
  (0 <=? limit) = true ->
  present reading && (the reading >? limit) = above reading limit.
Proof.
  intros Hl. destruct reading as [x|]; simpl; [|reflexivity].
  destruct (x >? limit) eqn:E.
  - now rewrite (FloatOrder.gtb_truthy limit x Hl E).
  - apply andb_false_r.
Qed.

(** C8: for every snapshot and breakdown, [generateRecommendations] is the
    concatenation, in the order cardiovascular, metabolic, activity,
    lifestyle, of one block of one or two strings per dimension whose
    breakdown value is below 70 (the condition-specific string is present
    exactly when restingHeartRate > 80, bmi > 25, stepCount < 7000
    respectively, and is pushed before the dimension's general string), with
    the generic pair standing in for an empty list, cut to its first four
    entries; being a function of its two arguments it is deterministic. *)
Theorem C8_recommendations_order (data : HealthData) (b : Breakdown) :
  generateRecommendations data b = specRecommendations data b
  /\ (List.length (generateRecommendations data b) <= 4)%nat
  /\ (forall score threshold specific general,
        (score <? 70) = true ->
        (1 <= List.length (dimensionTips score threshold specific general) <= 2)%nat
        /\ (In specific (dimensionTips score threshold specific general) ->
            threshold = true \/ specific = general)).
Proof.
  split; [|split].
  - unfold generateRecommendations, specRecommendations, dimensionTips.
    rewrite !present_above by reflexivity.
    unfold above, below, push.
    split_branches; reflexivity.
  - unfold generateRecommendations. apply firstn_le_length.
  - intros score threshold specific general H. unfold dimensionTips.
    rewrite H. destruct threshold; simpl; split; try lia; intuition.
Qed.

Lemma C8_recommendations_order_witness :
  (70 <? 70) = false /\ (60 <? 70) = true /\
  (1 <= List.length (dimensionTips 60%float true recLowerRestingHeartRate recMonitorHeart) <= 2)%nat.
Proof.
  split; [reflexivity|]. split; [reflexivity|].
  apply (proj2 (proj2 (C8_recommendations_order emptyData (mkBreakdown 60 100 100 100)))
           60 true recLowerRestingHeartRate recMonitorHeart).
  reflexivity.
Defined.

(** C9: the list of recommendations is never empty: for every snapshot and
    breakdown it has between one and four entries; a dimension below 70
    contributes at least its general string, and when no dimension is below
    70 the list is exactly the two generic strings. *)
Theorem C9_recommendations_nonempty (data : HealthData) (b : Breakdown) :
  (1 <= List.length (generateRecommendations data b) <= 4)%nat
  /\ ((cardiovascular b <? 70) = false -> (metabolic b <? 70) = false ->
      (activity b <? 70) = false -> (lifestyle b <? 70) = false ->
      generateRecommendations data b = [recKeepItUp; recKeepMonitoring])
  /\ ((cardiovascular b <? 70) = true ->
      In recMonitorHeart (generateRecommendations data b)).
Proof.
  split; [|split].
  - unfold generateRecommendations, push.
    split_branches; simpl; lia.
  - intros Hc Hm Ha Hl. unfold generateRecommendations.
    rewrite Hc, Hm, Ha, Hl. reflexivity.
  - intros Hc. unfold generateRecommendations, push. rewrite Hc.
    split_branches; simpl; auto.
Qed.

Lemma C9_recommendations_nonempty_witness :
  generateRecommendations emptyData (mkBreakdown 100 100 100 100)
    = [recKeepItUp; recKeepMonitoring]
  /\ In recMonitorHeart
       (generateRecommendations emptyData (mkBreakdown 60 100 100 100)).
Proof.
  split.
  - apply (proj1 (proj2 (C9_recommendations_nonempty emptyData
                           (mkBreakdown 100 100 100 100)))); reflexivity.
  - apply (proj2 (proj2 (C9_recommendations_nonempty emptyData
                           (mkBreakdown 60 100 100 100)))); reflexivity.
Defined.

(** ** Totality

    Nothing in the engine can throw: it reads fields of [data], calls the
    functions of its own module and [Math], and divides; a binary64 division
    by zero is an infinity or NaN, never an error.  The embedding is
    therefore a function into [ACMScore] with no error case, and what is
    left to prove is that no NaN or infinity reaches the result. *)

Lemma recommendations_length data b :
  (1 <= List.length (generateRecommendations data b) <= 4)%nat.
Proof.
  unfold generateRecommendations, push. split_branches; simpl; lia.
Qed.

Lemma calculateACMScore_complete data :
  isComplete (calculateACMScore data) = true.
Proof.
  unfold isComplete. rewrite overall_ok.
  unfold calculateACMScore; cbv zeta; simpl breakdown; simpl recommendations.
  simpl cardiovascular; simpl metabolic; simpl activity; simpl lifestyle.
  rewrite (proj2 (cardiovascular_ok data)), (proj2 (metabolic_ok data)),
    (proj2 (activity_ok data)), (proj2 (lifestyle_ok data)).
  match goal with |- context [generateRecommendations ?d ?b] =>
    destruct (recommendations_length d b) as [H1 H4] end.
  apply Nat.leb_le in H1, H4. now rewrite H1, H4.
Qed.

(** With an ideal weight of zero the relative difference is +infinity for
    every truthy weight, so the larger penalty applies. *)
Lemma weightRule_zero_ideal w score :
  truthy w = true -> weightRule w 0 score = score - 20.
Proof.
  unfold truthy, is_zero, is_nan, weightRule, gtb, Math_abs. intros H.
  assert (E : (0.3 <? abs (w - 0) / 0) = true).
  { rewrite FloatAxioms.ltb_spec, FloatAxioms.div_spec, FloatAxioms.abs_spec,
      FloatAxioms.sub_spec.
    rewrite !FloatAxioms.eqb_spec in H. revert H.
    change (Prim2SF zero) with (S754_zero false).
    change (Prim2SF 0) with (S754_zero false).
    destruct (Prim2SF w) as [[|]|[|]| |[|] m e]; simpl; intros H;
      try discriminate H; reflexivity. }
  now rewrite E.
Qed.

(** *** An absent field skips its signal

    What each scorer returns when one of the fields it reads is null: the
    score the other signals give, the rule of the absent one left out. *)

Lemma absent_heartRate data :
  heartRate data = None ->
  calculateCardiovascularScore data =
    clamp (if present (restingHeartRate data)
           then restingHeartRateRule (the (restingHeartRate data)) 100
           else 100).
Proof.
  intros H. unfold calculateCardiovascularScore. rewrite H. reflexivity.
Qed.

Lemma absent_bmi data :
  bmi data = None ->
  calculateMetabolicScore data =
    let score :=
      if present (weight data) && present (height data)
      then calculatedBmiRule
             (calculatedBMI (the (weight data)) (the (height data))) 100
      else 100 in
    clamp (if present (weight data) && present (height data)
              && present (age data) && presentSex (biologicalSex data)
           then weightRule (the (weight data))
                  (idealWeight (the (height data)) (biologicalSex data)) score
           else score).
Proof.
  intros H. unfold calculateMetabolicScore. rewrite H. reflexivity.
Qed.

Lemma absent_weight_or_height data :
  weight data = None \/ height data = None ->
  calculateMetabolicScore data =
    clamp (if present (bmi data) then bmiRule (the (bmi data)) 100 else 100).
Proof.
  intros [H|H]; unfold calculateMetabolicScore; rewrite H; cbn [present];
    rewrite ?andb_false_r; reflexivity.
Qed.

Lemma absent_age_or_sex_metabolic data :
  age data = None \/ biologicalSex data = None ->
  calculateMetabolicScore data =
    clamp (if present (bmi data) then bmiRule (the (bmi data)) 100
           else if present (weight data) && present (height data)
           then calculatedBmiRule
                  (calculatedBMI (the (weight data)) (the (height data))) 100
           else 100).
Proof.
  intros [H|H]; unfold calculateMetabolicScore; rewrite H;
    cbn [present presentSex]; rewrite ?andb_false_r; reflexivity.
Qed.

Lemma absent_stepCount data :
  stepCount data = None ->
  calculateActivityScore data =
    clamp (match activeEnergyBurned data with
           | Some calories =>
               calorieRule (calories / targetCaloriesOf data) 100
           | None => 100
           end).
Proof. intros H. unfold calculateActivityScore. rewrite H. reflexivity. Qed.

Lemma absent_activeEnergyBurned data :
  activeEnergyBurned data = None ->
  calculateActivityScore data =
    clamp (match stepCount data with
           | Some steps => stepRule steps 100
           | None => 100
           end).
Proof. intros H. unfold calculateActivityScore. rewrite H. reflexivity. Qed.

Lemma absent_age_or_sex_target data :
  age data = None \/ biologicalSex data = None ->
  targetCaloriesOf data = 300.
Proof.
  intros [H|H]; unfold targetCaloriesOf; rewrite H; cbn [present presentSex];
    rewrite ?andb_false_r; reflexivity.
Qed.

Lemma absent_age_lifestyle data :
  age data = None ->
  calculateLifestyleScore data =
    let score := if is_male (biologicalSex data) then 100 - 5 else 100 in
    clamp (if dataCompletenessOf data / length_num (healthMetrics data)
              >=? 0.8
           then score + 10 else score).
Proof. intros H. unfold calculateLifestyleScore. rewrite H. reflexivity. Qed.

Lemma absent_sex_lifestyle data :
  biologicalSex data = None ->
  calculateLifestyleScore data =
    let score :=
      if present (age data) then ageRule (the (age data)) 100 else 100 in
    clamp (if dataCompletenessOf data / length_num (healthMetrics data)
              >=? 0.8
           then score + 10 else score).
Proof. intros H. unfold calculateLifestyleScore. rewrite H. reflexivity. Qed.

Lemma absent_age_adjustment data score :
  age data = None -> applyDemographicAdjustments score data = clamp score.
Proof.
  intros H. unfold applyDemographicAdjustments. rewrite H. reflexivity.
Qed.

(** A null metric leaves the completeness counter as it is. *)
Lemma null_metrics_not_counted metrics count :
  fold_left countMetric metrics count =
    fold_left countMetric
      (filter (fun metric => match metric with Some _ => true | None => false end)
         metrics) count.
Proof.
  revert count. induction metrics as [|[m|] rest IH]; intros count; simpl;
    [reflexivity|apply IH|apply IH].
Qed.

(** C2: [calculateACMScore] is total: for every snapshot, whatever fields
    are absent and whatever numbers the others hold, it returns a complete
    result (five integer scores in [0,100], none of them NaN or infinite, a
    risk tier, one to four recommendations).  A height of 100 cm makes the
    ideal weight zero and the relative difference +infinity, which costs the
    20 points of the largest deviation; at a height of 90 cm the ideal
    weight is negative and nothing is deducted for it; a scorer whose
    signals are all absent returns the base score.  Field by field, an
    absent reading only leaves its own signal out: without heartRate the
    cardiovascular score is the one the resting heart rate gives; without
    bmi the metabolic score uses the BMI computed from weight and height,
    without weight or height it is the one [data.bmi] gives, without age or
    sex it is the BMI adjustment alone; without stepCount the activity
    score is the one the calorie ratio gives, without activeEnergyBurned
    the one the steps give, and without age or sex the calorie target is
    300; without age the lifestyle score keeps the sex deduction and the
    completeness bonus, without sex the age deduction and the bonus, a null
    metric is not counted, and without age the weighted score is clamped
    as it is. *)
Theorem C2_engine_total :
  (forall data, isComplete (calculateACMScore data) = true)
  /\ (forall sex w score,
        truthy w = true ->
        idealWeight 100 sex = 0 /\
        weightRule w (idealWeight 100 sex) score = score - 20)
  /\ (calculateMetabolicScore (heightOnly 100 70) = 50
      /\ calculateMetabolicScore (heightOnly 90 70) = 70
      /\ isComplete (calculateACMScore (heightOnly 100 70)) = true)
  /\ (forall data,
        restingHeartRate data = None ->
        calculateCardiovascularScore data = 100)
  /\ (forall data,
        bmi data = None -> weight data = None ->
        calculateMetabolicScore data = 100)
  /\ (forall data,
        stepCount data = None -> activeEnergyBurned data = None ->
        calculateActivityScore data = 100)
  /\ (forall data,
        age data = None -> biologicalSex data = None ->
        calculateLifestyleScore data = 100)
  /\ (forall data,
        heartRate data = None ->
        calculateCardiovascularScore data =
          clamp (if present (restingHeartRate data)
                 then restingHeartRateRule (the (restingHeartRate data)) 100
                 else 100))
  /\ (forall data,
        bmi data = None ->
        calculateMetabolicScore data =
          let score :=
            if present (weight data) && present (height data)
            then calculatedBmiRule
                   (calculatedBMI (the (weight data)) (the (height data))) 100
            else 100 in
          clamp (if present (weight data) && present (height data)
                    && present (age data) && presentSex (biologicalSex data)
                 then weightRule (the (weight data))
                        (idealWeight (the (height data)) (biologicalSex data))
                        score
                 else score))
  /\ (forall data,
        weight data = None \/ height data = None ->
        calculateMetabolicScore data =
          clamp (if present (bmi data) then bmiRule (the (bmi data)) 100
                 else 100))
  /\ (forall data,
        age data = None \/ biologicalSex data = None ->
        calculateMetabolicScore data =
          clamp (if present (bmi data) then bmiRule (the (bmi data)) 100
                 else if present (weight data) && present (height data)
                 then calculatedBmiRule
                        (calculatedBMI (the (weight data)) (the (height data)))
                        100
                 else 100))
  /\ (forall data,
        stepCount data = None ->
        calculateActivityScore data =
          clamp (match activeEnergyBurned data with
                 | Some calories =>
                     calorieRule (calories / targetCaloriesOf data) 100
                 | None => 100
                 end))
  /\ (forall data,
        activeEnergyBurned data = None ->
        calculateActivityScore data =
          clamp (match stepCount data with
                 | Some steps => stepRule steps 100
                 | None => 100
                 end))
  /\ (forall data,
        age data = None \/ biologicalSex data = None ->
        targetCaloriesOf data = 300)
  /\ (forall data,
        age data = None ->
        calculateLifestyleScore data =
          let score := if is_male (biologicalSex data) then 100 - 5 else 100 in
          clamp (if dataCompletenessOf data / length_num (healthMetrics data)
                    >=? 0.8
                 then score + 10 else score))
  /\ (forall data,
        biologicalSex data = None ->
        calculateLifestyleScore data =
          let score :=
            if present (age data) then ageRule (the (age data)) 100
            else 100 in
          clamp (if dataCompletenessOf data / length_num (healthMetrics data)
                    >=? 0.8
                 then score + 10 else score))
  /\ (forall data,
        dataCompletenessOf data =
          fold_left countMetric
            (filter (fun metric =>
                       match metric with Some _ => true | None => false end)
               (healthMetrics data)) 0)
  /\ (forall data score,
        age data = None ->
        applyDemographicAdjustments score data = clamp score).
Proof.
  split; [exact calculateACMScore_complete|].
  split.
  { intros sex w score H.
    assert (E : idealWeight 100 sex = 0) by (destruct sex as [[| |]|]; reflexivity).
    split; [exact E|]. rewrite E. now apply weightRule_zero_ideal. }
  split; [repeat split; vm_compute; reflexivity|].
  split.
  { intros data H. unfold calculateCardiovascularScore. rewrite H. simpl.
    rewrite andb_false_r. reflexivity. }
  split.
  { intros data Hb Hw. unfold calculateMetabolicScore. rewrite Hb, Hw.
    reflexivity. }
  split.
  { intros data Hs He. unfold calculateActivityScore. rewrite Hs, He.
    reflexivity. }
  split.
  { intros data Ha Hs. unfold calculateLifestyleScore. rewrite Ha, Hs. simpl.
    split_branches; vm_compute; reflexivity. }
  split; [exact absent_heartRate|].
  split; [exact absent_bmi|].
  split; [exact absent_weight_or_height|].
  split; [exact absent_age_or_sex_metabolic|].
  split; [exact absent_stepCount|].
  split; [exact absent_activeEnergyBurned|].
  split; [exact absent_age_or_sex_target|].
  split; [exact absent_age_lifestyle|].
  split; [exact absent_sex_lifestyle|].
  split; [intros data; apply null_metrics_not_counted|].
  exact absent_age_adjustment.
Qed.

Lemma C2_engine_total_witness :
  isComplete (calculateACMScore (heightOnly 100 70)) = true
  /\ weightRule 70 (idealWeight 100 (Some female)) 70 = 70 - 20
  /\ calculateCardiovascularScore emptyData = 100
  /\ calculateMetabolicScore emptyData = 100
  /\ calculateActivityScore emptyData = 100
  /\ calculateLifestyleScore emptyData = 100
  /\ calculateCardiovascularScore (setRestingHeartRate (Some 110) emptyData)
     = clamp (restingHeartRateRule 110 100)
  /\ calculateMetabolicScore (heightOnly 100 70)
     = clamp (weightRule 70 (idealWeight 100 (Some female))
                (calculatedBmiRule (calculatedBMI 70 100) 100))
  /\ calculateMetabolicScore (setBmi (Some 32) emptyData)
     = clamp (bmiRule 32 100)
  /\ calculateActivityScore (energyOnly 0)
     = clamp (calorieRule (0 / targetCaloriesOf (energyOnly 0)) 100)
  /\ calculateActivityScore (stepsOnly 2000) = clamp (stepRule 2000 100)
  /\ targetCaloriesOf (energyOnly 0) = 300
  /\ calculateLifestyleScore (stepsOnly 2000) = clamp 100
  /\ applyDemographicAdjustments 80 (stepsOnly 2000) = clamp 80.
Proof.
  destruct C2_engine_total
    as [T [Z [_ [C [M [A [L [HR [B [WH [AS [SC [AE [TG [AL [SL [_ AD]]]]]]]]]]]]]]]]].
  split; [apply T|].
  split; [apply (Z (Some female) 70 70); reflexivity|].
  split; [apply C; reflexivity|].
  split; [apply M; reflexivity|].
  split; [apply A; reflexivity|].
  split; [apply L; reflexivity|].
  split; [apply (HR (setRestingHeartRate (Some 110) emptyData)); reflexivity|].
  split; [apply (B (heightOnly 100 70)); reflexivity|].
  split.
  { rewrite (WH (setBmi (Some 32) emptyData)) by (left; reflexivity).
    exact (AS (setBmi (Some 32) emptyData) (or_introl eq_refl)). }
  split; [apply (SC (energyOnly 0)); reflexivity|].
  split; [apply (AE (stepsOnly 2000)); reflexivity|].
  split; [apply (TG (energyOnly 0)); left; reflexivity|].
  split.
  { rewrite (AL (stepsOnly 2000)) by reflexivity.
    exact (SL (stepsOnly 2000) eq_refl). }
  apply (AD (stepsOnly 2000) 80). reflexivity.
Defined.

(** ** The empty snapshot *)

(** C3: for the snapshot whose every field is null, each of the four
    sub-scores is 100, overall is 100, the risk level is low and the
    recommendations are the two generic strings, in that order. *)
Theorem C3_empty_snapshot :
  calculateCardiovascularScore emptyData = 100
  /\ calculateMetabolicScore emptyData = 100
  /\ calculateActivityScore emptyData = 100
  /\ calculateLifestyleScore emptyData = 100
  /\ calculateACMScore emptyData =
       mkACMScore 100 (mkBreakdown 100 100 100 100) low
         [recKeepItUp; recKeepMonitoring].
Proof. repeat split; vm_compute; reflexivity. Qed.

(** ** The two BMI chains *)

(** C4: the chain for [data.bmi] and the chain for the computed BMI differ
    on a BMI strictly between 24.9 and 25: the computed-BMI chain ends in a
    plain [else] and adds 10, the chain for [data.bmi] tests
    [18.5 <= bmi <= 24.9] and adds nothing, although the module's own table
    has the normal band run up to 25.  On [bmiGapData] the metabolic score
    is 100 with bmi absent and 90 with bmi set to the computed value. *)
Theorem C4_bmi_chains_differ :
  let derived := calculatedBMI 99.8 200 in
  bmi bmiGapData = None
  /\ weight bmiGapData = Some 99.8 /\ height bmiGapData = Some 200
  /\ (24.9 <? derived) = true /\ (derived <? 25) = true
  /\ (band_min RISK_FACTORS.bmi.normal <=? derived) = true
  /\ (derived <? band_max RISK_FACTORS.bmi.normal) = true
  /\ calculatedBmiRule derived 100 = 110
  /\ bmiRule derived 100 = 100
  /\ calculateMetabolicScore bmiGapData = 100
  /\ calculateMetabolicScore (setBmi (Some derived) bmiGapData) = 90.
Proof. cbv zeta. repeat split; vm_compute; reflexivity. Qed.

(** Outside the gap the two chains agree on every truthy BMI. *)
Lemma bmi_chains_agree_outside_gap b score :
  truthy b = true ->
  (b <=? 24.9) = true \/ (b >=? 25) = true ->
  bmiRule b score = calculatedBmiRule b score.
Proof.
  intros Ht Hb. unfold bmiRule, calculatedBmiRule.
  destruct (b <? 18.5) eqn:E1; [reflexivity|].
  destruct (b >=? 30) eqn:E2; [reflexivity|].
  destruct (b >=? 25) eqn:E3; [reflexivity|].
  destruct Hb as [Hb|Hb]; [|discriminate Hb].
  rewrite Hb, andb_true_r.
  assert (N : is_nan b = false).
  { unfold truthy in Ht. apply negb_true_iff, orb_false_iff in Ht. tauto. }
  unfold geb. now rewrite (FloatOrder.ltb_total b 18.5 N eq_refl E1).
Qed.

(** ** The tiers of the activity chains *)

(** The step chain without its unreachable last test. *)
Lemma stepRule_live steps score :
  stepRule steps score =
    if steps <? 3000 then score - 40
    else if steps <? 5000 then score - 25
    else if steps <? 7000 then score - 10
    else if steps >=? 10000 then score + 15
    else score.
Proof.
  unfold stepRule. destruct (steps >=? 10000) eqn:G; [reflexivity|].
  destruct (steps >=? 12000) eqn:G2; [|reflexivity].
  rewrite (FloatOrder.geb_weaken 10000 12000 steps eq_refl G2) in G.
  discriminate.
Qed.

(** The calorie chain without its unreachable last test. *)
Lemma calorieRule_live calorieRatio score :
  calorieRule calorieRatio score =
    if calorieRatio <? 0.3 then score - 30
    else if calorieRatio <? 0.6 then score - 15
    else if calorieRatio >=? 1.2 then score + 15
    else score.
Proof.
  unfold calorieRule. destruct (calorieRatio >=? 1.2) eqn:G; [reflexivity|].
  destruct (calorieRatio >=? 1.5) eqn:G2; [|reflexivity].
  rewrite (FloatOrder.geb_weaken 1.2 1.5 calorieRatio eq_refl G2) in G.
  discriminate.
Qed.

Lemma activity_without_top_tiers data :
  calculateActivityScore data = activityScoreWithoutTopTiers data.
Proof.
  unfold calculateActivityScore, activityScoreWithoutTopTiers.
  destruct (stepCount data) as [steps|];
    destruct (activeEnergyBurned data) as [calories|];
    rewrite ?stepRule_live, ?calorieRule_live; reflexivity.
Qed.

Lemma stepRule_from_12000 steps score :
  (steps >=? 12000) = true -> stepRule steps score = score + 15.
Proof.
  intros H. unfold stepRule.
  rewrite (FloatOrder.geb_not_ltb 3000 12000 steps eq_refl H).
  rewrite (FloatOrder.geb_not_ltb 5000 12000 steps eq_refl H).
  rewrite (FloatOrder.geb_not_ltb 7000 12000 steps eq_refl H).
  now rewrite (FloatOrder.geb_weaken 10000 12000 steps eq_refl H).
Qed.

Lemma calorieRule_from_1_5 calorieRatio score :
  (calorieRatio >=? 1.5) = true ->
  calorieRule calorieRatio score = score + 15.
Proof.
  intros H. unfold calorieRule.
  rewrite (FloatOrder.geb_not_ltb 0.3 1.5 calorieRatio eq_refl H).
  rewrite (FloatOrder.geb_not_ltb 0.6 1.5 calorieRatio eq_refl H).
  now rewrite (FloatOrder.geb_weaken 1.2 1.5 calorieRatio eq_refl H).
Qed.

(** C5: in the activity scorer the high-tier bonuses are unreachable: a
    step count of 12000 or more earns +15, a calorie ratio of 1.5 or more
    earns +15, and the tests guarding the +20 branches are false whenever
    the chain gets to them, because the tests for 10000 and 1.2 come first;
    15000 steps alone give 115, clamped to an activity score of 100.  Of
    the scorer itself: on every snapshot it returns what it returns with
    the two +20 branches taken out; with 12000 steps or more and a calorie
    ratio below 0.3 the activity score is 100 + 15 - 30 = 85 (not 90, not
    70), and with a ratio of 1.5 or more it is 100 - 40 + 15 = 75 below
    3000 steps and 100 - 25 + 15 = 90 from 3000 to below 5000 steps. *)
Theorem C5_high_tiers_unreachable :
  (forall steps score,
      (steps >=? 12000) = true -> stepRule steps score = score + 15)
  /\ (forall calorieRatio score,
      (calorieRatio >=? 1.5) = true ->
      calorieRule calorieRatio score = score + 15)
  /\ (forall steps,
      (steps >=? 10000) = false -> (steps >=? 12000) = false)
  /\ (forall calorieRatio,
      (calorieRatio >=? 1.2) = false -> (calorieRatio >=? 1.5) = false)
  /\ (forall data steps,
      stepCount data = Some steps -> (steps >=? 12000) = true ->
      activeEnergyBurned data = None ->
      calculateActivityScore data = clamp (100 + 15))
  /\ stepRule 15000 100 = 115
  /\ clamp 115 = 100
  /\ calculateActivityScore (stepsOnly 15000) = 100
  /\ (forall data,
      calculateActivityScore data = activityScoreWithoutTopTiers data)
  /\ (forall data steps calories,
      stepCount data = Some steps -> activeEnergyBurned data = Some calories ->
      (steps >=? 12000) = true ->
      (calories / targetCaloriesOf data <? 0.3) = true ->
      calculateActivityScore data = 85)
  /\ (forall data steps calories,
      stepCount data = Some steps -> activeEnergyBurned data = Some calories ->
      (calories / targetCaloriesOf data >=? 1.5) = true ->
      ((steps <? 3000) = true -> calculateActivityScore data = 75)
      /\ ((steps <? 3000) = false -> (steps <? 5000) = true ->
          calculateActivityScore data = 90))
  /\ calculateActivityScore manyStepsNoEnergy = 85
  /\ calculateActivityScore noStepsMuchEnergy = 75.
Proof.
  split; [exact stepRule_from_12000|].
  split; [exact calorieRule_from_1_5|].
  split.
  { intros steps H. destruct (steps >=? 12000) eqn:E; [|reflexivity].
    now rewrite (FloatOrder.geb_weaken 10000 12000 steps eq_refl E) in H. }
  split.
  { intros r H. destruct (r >=? 1.5) eqn:E; [|reflexivity].
    now rewrite (FloatOrder.geb_weaken 1.2 1.5 r eq_refl E) in H. }
  split.
  { intros data steps Hs H He. unfold calculateActivityScore.
    now rewrite Hs, He, (stepRule_from_12000 steps 100 H). }
  split; [vm_compute; reflexivity|].
  split; [vm_compute; reflexivity|].
  split; [vm_compute; reflexivity|].
  split; [exact activity_without_top_tiers|].
  split.
  { intros data steps calories Hs He H L. unfold calculateActivityScore.
    rewrite Hs, He, (stepRule_from_12000 steps 100 H).
    unfold calorieRule. rewrite L. vm_compute. reflexivity. }
  split.
  { intros data steps calories Hs He H. unfold calculateActivityScore.
    rewrite Hs, He. rewrite (calorieRule_from_1_5 _ _ H). unfold stepRule.
    split.
    - intros L. rewrite L. vm_compute. reflexivity.
    - intros L3 L5. rewrite L3, L5. vm_compute. reflexivity. }
  split; vm_compute; reflexivity.
Qed.

Lemma C5_high_tiers_unreachable_witness :
  stepRule 15000 100 = 100 + 15
  /\ calorieRule 2 100 = 100 + 15
  /\ (9000 >=? 12000) = false
  /\ (1 >=? 1.5) = false
  /\ calculateActivityScore (stepsOnly 12000) = clamp (100 + 15)
  /\ calculateActivityScore manyStepsNoEnergy = 85
  /\ calculateActivityScore noStepsMuchEnergy = 75
  /\ calculateActivityScore
       (mkHealthData (Some 4000) None None None None None None None
          (Some 1000) None None) = 90.
Proof.
  destruct C5_high_tiers_unreachable
    as [S [C [DS [DC [A [_ [_ [_ [_ [L [H _]]]]]]]]]]].
  split; [apply S; reflexivity|].
  split; [apply C; reflexivity|].
  split; [apply DS; reflexivity|].
  split; [apply DC; reflexivity|].
  split; [apply (A (stepsOnly 12000) 12000); reflexivity|].
  split; [apply (L manyStepsNoEnergy 15000 0); reflexivity|].
  split.
  - apply (proj1 (H noStepsMuchEnergy 0 1000 eq_refl eq_refl eq_refl)).
    reflexivity.
  - apply (proj2 (H (mkHealthData (Some 4000) None None None None None None
                       None (Some 1000) None None) 4000 1000
                    eq_refl eq_refl eq_refl)); reflexivity.
Defined.

(** ** Aggregation: proofs *)

(** A falsy number (a zero or NaN) is not at or above a positive bound. *)
Lemma falsy_not_geb limit x :
  (0 <? limit) = true -> truthy x = false -> (x >=? limit) = false.
Proof.
  intros Hl Hx. destruct (x >=? limit) eqn:E; [|reflexivity].
  unfold geb in E.
  pose proof (FloatOrder.ltb_leb_trans _ _ _ Hl E) as H0.
  rewrite (FloatOrder.gtb_truthy 0 x eq_refl H0) in Hx. discriminate.
Qed.

Lemma weighted_mul_one :
  forallWeighted (fun w => Leibniz.eqb (w * 1.0) w) = true.
Proof. vm_compute. reflexivity. Qed.

(** C6: overall is round(clamp((cardiovascular * 0.35 + metabolic * 0.25 +
    activity * 0.25 + lifestyle * 0.15) * m)) on the unrounded sub-scores,
    with m = 0.85 from age 65, 0.9 from 50, 0.95 from 30 and 1.0 otherwise,
    also when age is absent; the breakdown holds the four sub-scores, each
    rounded on its own. *)
Theorem C6_aggregation (data : HealthData) :
  let c := calculateCardiovascularScore data in
  let m := calculateMetabolicScore data in
  let a := calculateActivityScore data in
  let l := calculateLifestyleScore data in
  let r := calculateACMScore data in
  overall r =
    Math_round
      (clamp ((c * 0.35 + m * 0.25 + a * 0.25 + l * 0.15)
              * ageMultiplier (age data)))
  /\ breakdown r =
       mkBreakdown (Math_round c) (Math_round m) (Math_round a) (Math_round l).
Proof.
  cbv zeta. split; [|reflexivity].
  unfold calculateACMScore; cbv zeta; simpl overall.
  unfold applyDemographicAdjustments.
  pose proof (forallWeighted_spec _ weighted_mul_one data) as E.
  apply FloatAxioms.Leibniz.eqb_spec in E.
  unfold weightedScoreOf in *.
  destruct (age data) as [x|]; simpl.
  - destruct (truthy x) eqn:T; [reflexivity|].
    rewrite (falsy_not_geb 65 x eq_refl T), (falsy_not_geb 50 x eq_refl T),
      (falsy_not_geb 30 x eq_refl T).
    now rewrite E.
  - now rewrite E.
Qed.

(** ** Risk tiers and colours *)

(** C7: [determineRiskLevel] and [getScoreColor] cut at 85, 70 and 50: a
    score of 85 or more is low, from 70 to below 85 moderate, from 50 to
    below 70 high, below 50 very-high (85 low, 84 moderate, 70 moderate,
    69 high, 50 high, 49 very-high), and [getScoreColor] gives every score
    the colour of its tier, the four tiers having four different colours. *)
Theorem C7_tiers_and_colors :
  (forall s, (s >=? 85) = true -> determineRiskLevel s = low)
  /\ (forall s, (s >=? 70) = true -> (s <? 85) = true ->
        determineRiskLevel s = moderate)
  /\ (forall s, (s >=? 50) = true -> (s <? 70) = true ->
        determineRiskLevel s = high)
  /\ (forall s, (s <? 50) = true -> determineRiskLevel s = very_high)
  /\ (determineRiskLevel 85 = low /\ determineRiskLevel 84 = moderate
      /\ determineRiskLevel 70 = moderate /\ determineRiskLevel 69 = high
      /\ determineRiskLevel 50 = high /\ determineRiskLevel 49 = very_high)
  /\ (forall s, getScoreColor s = tierColor (determineRiskLevel s))
  /\ (forall t u, tierColor t = tierColor u -> t = u).
Proof.
  split.
  { intros s H. unfold determineRiskLevel. now rewrite H. }
  split.
  { intros s H1 H2. unfold determineRiskLevel, geb.
    rewrite (FloatOrder.ltb_not_leb _ _ H2). unfold geb in H1. now rewrite H1. }
  split.
  { intros s H1 H2. unfold determineRiskLevel.
    rewrite (FloatOrder.ltb_not_geb 70 85 s eq_refl H2).
    unfold geb. rewrite (FloatOrder.ltb_not_leb _ _ H2).
    unfold geb in H1. now rewrite H1. }
  split.
  { intros s H. unfold determineRiskLevel.
    rewrite (FloatOrder.ltb_not_geb 50 85 s eq_refl H).
    rewrite (FloatOrder.ltb_not_geb 50 70 s eq_refl H).
    unfold geb. now rewrite (FloatOrder.ltb_not_leb _ _ H). }
  split; [repeat split; vm_compute; reflexivity|].
  split.
  { intros s. unfold getScoreColor, determineRiskLevel.
    split_branches; reflexivity. }
  intros [] []; simpl; intros H; try reflexivity; discriminate H.
Qed.

Lemma C7_tiers_and_colors_witness :
  determineRiskLevel 90 = low /\ determineRiskLevel 77 = moderate
  /\ determineRiskLevel 55 = high /\ determineRiskLevel 12 = very_high
  /\ moderate = moderate.
Proof.
  destruct C7_tiers_and_colors as [L [M [H [V [_ [_ I]]]]]].
  split; [apply L; reflexivity|].
  split; [apply M; reflexivity|].
  split; [apply H; reflexivity|].
  split; [apply V; reflexivity|].
  apply I; reflexivity.
Defined.

(** ** Readings of zero *)

Lemma cardiovascular_zero_restingHeartRate data :
  calculateCardiovascularScore (setRestingHeartRate (Some 0) data)
  = calculateCardiovascularScore (setRestingHeartRate None data).
Proof.
  unfold calculateCardiovascularScore.
  cbn [setRestingHeartRate restingHeartRate heartRate].
  change (present (Some 0)) with false. cbn [present].
  now rewrite !andb_false_r.
Qed.

(** The result depends on the snapshot through the six functions only. *)
Lemma calculateACMScore_ext d1 d2 :
  calculateCardiovascularScore d1 = calculateCardiovascularScore d2 ->
  calculateMetabolicScore d1 = calculateMetabolicScore d2 ->
  calculateActivityScore d1 = calculateActivityScore d2 ->
  calculateLifestyleScore d1 = calculateLifestyleScore d2 ->
  (forall score,
      applyDemographicAdjustments score d1
      = applyDemographicAdjustments score d2) ->
  (forall b, generateRecommendations d1 b = generateRecommendations d2 b) ->
  calculateACMScore d1 = calculateACMScore d2.
Proof.
  intros Ec Em Ea El Ed Eg. unfold calculateACMScore.
  now rewrite Ec, Em, Ea, El, Ed, Eg.
Qed.

(** C10: a reading of zero counts as absent where presence is tested by
    truthiness and as present where it is tested against null: with
    restingHeartRate, heartRate or bmi set to 0 the engine returns what it
    returns with that field null (a bmi of 0 falls through to the
    weight/height branch), whereas a stepCount of 0 alone gives an activity
    score of 60 and an activeEnergyBurned of 0 alone gives 70, where the
    absent reading gives 100. *)
Theorem C10_zero_readings (data : HealthData) :
  calculateACMScore (setRestingHeartRate (Some 0) data)
    = calculateACMScore (setRestingHeartRate None data)
  /\ calculateACMScore (setHeartRate (Some 0) data)
    = calculateACMScore (setHeartRate None data)
  /\ calculateACMScore (setBmi (Some 0) data)
    = calculateACMScore (setBmi None data)
  /\ (calculateActivityScore (stepsOnly 0) = 60
      /\ activity (breakdown (calculateACMScore (stepsOnly 0))) = 60)
  /\ (calculateActivityScore (energyOnly 0) = 70
      /\ activity (breakdown (calculateACMScore (energyOnly 0))) = 70)
  /\ activity (breakdown (calculateACMScore emptyData)) = 100.
Proof.
  split; [|split; [|split]].
  - apply calculateACMScore_ext; try reflexivity.
    apply cardiovascular_zero_restingHeartRate.
  - apply calculateACMScore_ext; reflexivity.
  - apply calculateACMScore_ext; reflexivity.
  - repeat split; vm_compute; reflexivity.
Qed.

(** ** Readings worked by hand

    [Math.round] on ties, and the single-reading snapshots one would try
    first: a resting heart rate of 45 or 110, a BMI of 32, 2000 steps, an
    age of 70. *)

Example round_half_up :
  Math_round 84.5 = 85 /\ Math_round 2.5 = 3 /\ Math_round (-2.5) = -2.
Proof. repeat split; reflexivity. Qed.

Example single_readings :
  calculateCardiovascularScore (setRestingHeartRate (Some 45) emptyData) = 100
  /\ calculateCardiovascularScore (setRestingHeartRate (Some 110) emptyData) = 75
  /\ calculateMetabolicScore (setBmi (Some 32) emptyData) = 70
  /\ calculateActivityScore (stepsOnly 2000) = 60
  /\ calculateLifestyleScore
       (mkHealthData None None None None None None None None None (Some 70) None)
     = 85.
Proof. repeat split; vm_compute; reflexivity. Qed.

(** ** Bounds on the overall score *)

Lemma forallScores_spec cs ms acts ls p c m a l :
  forallScores cs ms acts ls p = true ->
  In c cs -> In m ms -> In a acts -> In l ls ->
  p (weightedScoreOf c m a l) = true.
Proof.
  unfold forallScores. intros H Hc Hm Ha Hl.
  rewrite forallb_forall in H. specialize (H _ Hc).
  rewrite forallb_forall in H. specialize (H _ Hm).
  rewrite forallb_forall in H. specialize (H _ Ha).
  rewrite forallb_forall in H. exact (H _ Hl).
Qed.

(** A number at or above a positive bound is truthy. *)
Lemma geb_truthy limit x :
  (0 <? limit) = true -> (x >=? limit) = true -> truthy x = true.
Proof.
  intros Hl Hx. destruct (truthy x) eqn:T; [reflexivity|].
  rewrite (falsy_not_geb limit x Hl T) in Hx. discriminate.
Qed.

Lemma overall_candidates_at_least_47 :
  forallWeighted (fun w =>
    forallb (fun k => 47 <=? Math_round (clamp k)) (adjustedCandidates w))
  = true.
Proof. vm_compute. reflexivity. Qed.

(** X1: the overall score is never below 47, whatever the snapshot, and 47
    is reached (by [worstData], which is classified very-high). *)
Theorem overall_at_least_47 :
  (forall data, (47 <=? overall (calculateACMScore data)) = true)
  /\ overall (calculateACMScore worstData) = 47
  /\ riskLevel (calculateACMScore worstData) = very_high.
Proof.
  split; [|split; vm_compute; reflexivity].
  intros data.
  pose proof (forallWeighted_spec _ overall_candidates_at_least_47 data) as H.
  rewrite forallb_forall in H.
  unfold calculateACMScore; cbv zeta; simpl overall.
  set (w := weightedScoreOf _ _ _ _) in *.
  destruct (proj1 (in_map_iff _ _ _) (adjusted_candidates w data))
    as [k [<- Hk]].
  exact (H k Hk).
Qed.

Lemma adjusted_by_age data a score :
  age data = Some a -> truthy a = true ->
  applyDemographicAdjustments score data =
    clamp (score * (if a >=? 65 then 0.85
                    else if a >=? 50 then 0.9
                    else if a >=? 30 then 0.95
                    else 1.0)).
Proof.
  intros Ha T. unfold applyDemographicAdjustments. rewrite Ha. simpl.
  now rewrite T.
Qed.

Lemma senior_lifestyle_values data a :
  age data = Some a -> (a >=? 65) = true ->
  In (calculateLifestyleScore data) seniorLifestyleValues.
Proof.
  intros Ha H. unfold calculateLifestyleScore, ageRule. rewrite Ha. simpl.
  rewrite (geb_truthy 65 a eq_refl H), H.
  split_branches; in_values.
Qed.

Lemma senior_candidates_at_most_84 :
  forallScores cardiovascularValues metabolicValues activityValues
    seniorLifestyleValues
    (fun w => (Math_round (clamp (w * 0.85)) <=? 84)
              && negb (Math_round (clamp (w * 0.85)) >=? 85))
  = true.
Proof. vm_compute. reflexivity. Qed.

Lemma from_50_candidates_at_most_90 :
  forallWeighted (fun w =>
    (Math_round (clamp (w * 0.85)) <=? 90)
    && (Math_round (clamp (w * 0.9)) <=? 90)) = true.
Proof. vm_compute. reflexivity. Qed.

Lemma from_30_candidates_at_most_95 :
  forallWeighted (fun w =>
    (Math_round (clamp (w * 0.85)) <=? 95)
    && (Math_round (clamp (w * 0.9)) <=? 95)
    && (Math_round (clamp (w * 0.95)) <=? 95)) = true.
Proof. vm_compute. reflexivity. Qed.

(** X2: age caps the overall score: it is at most 95 from an age of 30,
    at most 90 from 50, and at most 84 from 65, so that nobody of 65 or
    more is ever classified low risk. *)
Theorem overall_capped_by_age (data : HealthData) (a : number) :
  age data = Some a ->
  ((a >=? 30) = true -> (overall (calculateACMScore data) <=? 95) = true)
  /\ ((a >=? 50) = true -> (overall (calculateACMScore data) <=? 90) = true)
  /\ ((a >=? 65) = true ->
      (overall (calculateACMScore data) <=? 84) = true
      /\ riskLevel (calculateACMScore data) <> low).
Proof.
  intros Ha. unfold calculateACMScore; cbv zeta; simpl overall; simpl riskLevel.
  split; [|split].
  - intros H. rewrite (adjusted_by_age data a _ Ha (geb_truthy 30 a eq_refl H)).
    pose proof (forallWeighted_spec _ from_30_candidates_at_most_95 data) as E.
    apply andb_true_iff in E. destruct E as [E E3].
    apply andb_true_iff in E. destruct E as [E1 E2].
    rewrite H. destruct (a >=? 65); [exact E1|].
    destruct (a >=? 50); [exact E2|exact E3].
  - intros H. rewrite (adjusted_by_age data a _ Ha (geb_truthy 50 a eq_refl H)).
    pose proof (forallWeighted_spec _ from_50_candidates_at_most_90 data) as E.
    apply andb_true_iff in E. destruct E as [E1 E2].
    rewrite H. destruct (a >=? 65); [exact E1|exact E2].
  - intros H. rewrite (adjusted_by_age data a _ Ha (geb_truthy 65 a eq_refl H)).
    rewrite H.
    pose proof (forallScores_spec _ _ _ _ _ _ _ _ _
                  senior_candidates_at_most_84
                  (cardiovascular_values data) (metabolic_values data)
                  (activity_values data)
                  (senior_lifestyle_values data a Ha H)) as E.
    apply andb_true_iff in E. destruct E as [E1 E2].
    split; [exact E1|].
    apply negb_true_iff in E2. unfold determineRiskLevel. rewrite E2.
    split_branches; discriminate.
Qed.

Lemma overall_capped_by_age_witness :
  (overall (calculateACMScore worstData) <=? 95) = true
  /\ (overall (calculateACMScore worstData) <=? 90) = true
  /\ (overall (calculateACMScore worstData) <=? 84) = true
  /\ riskLevel (calculateACMScore worstData) <> low.
Proof.
  destruct (overall_capped_by_age worstData 70 eq_refl) as [A [B C]].
  split; [apply A; reflexivity|].
  split; [apply B; reflexivity|].
  apply C; reflexivity.
Defined.

(** ** Recommendations of the engine *)

Lemma not_in_by_eqb (x : string) xs :
  existsb (String.eqb x) xs = false -> ~ In x xs.
Proof.
  intros H Hin.
  assert (E : existsb (String.eqb x) xs = true).
  { apply existsb_exists. exists x. split; [exact Hin|apply String.eqb_refl]. }
  rewrite E in H. discriminate.
Qed.

Lemma distinct_NoDup xs : distinct xs = true -> NoDup xs.
Proof.
  induction xs as [|x rest IH]; simpl; intros H; [constructor|].
  apply andb_true_iff in H. destruct H as [Hx Hr].
  constructor; [|exact (IH Hr)].
  apply not_in_by_eqb. now apply negb_true_iff.
Qed.

(** X5: [generateRecommendations] never repeats a string. *)
Theorem recommendations_distinct (data : HealthData) (b : Breakdown) :
  NoDup (generateRecommendations data b).
Proof.
  unfold generateRecommendations, push.
  split_branches; apply distinct_NoDup; vm_compute; reflexivity.
Qed.

Lemma lifestyle_not_below_70 data :
  (Math_round (calculateLifestyleScore data) <? 70) = false
  /\ (80 <=? calculateLifestyleScore data) = true.
Proof.
  assert (H : forallb (fun v => negb (Math_round v <? 70) && (80 <=? v))
                lifestyleValues = true) by (vm_compute; reflexivity).
  rewrite forallb_forall in H. specialize (H _ (lifestyle_values data)).
  apply andb_true_iff in H. destruct H as [H1 H2].
  apply negb_true_iff in H1. now split.
Qed.

(** X3: the lifestyle sub-score is never below 80, so the result of
    [calculateACMScore] never holds the sleep tip nor the stress tip, which
    [generateRecommendations] keeps for a lifestyle score below 70. *)
Theorem lifestyle_tips_never_given (data : HealthData) :
  (80 <=? calculateLifestyleScore data) = true
  /\ ~ In recSleep (recommendations (calculateACMScore data))
  /\ ~ In recStress (recommendations (calculateACMScore data)).
Proof.
  destruct (lifestyle_not_below_70 data) as [L1 L2].
  split; [exact L2|].
  unfold calculateACMScore; cbv zeta; simpl recommendations.
  unfold generateRecommendations, push.
  cbn [cardiovascular metabolic activity lifestyle]. rewrite L1.
  split; split_branches; apply not_in_by_eqb; vm_compute; reflexivity.
Qed.

(** A cardiovascular score below 70 takes a resting heart rate of 100 or
    more, which is above 80. *)
Lemma cardiovascular_below_70 data :
  (Math_round (calculateCardiovascularScore data) <? 70) = true ->
  present (restingHeartRate data) && (the (restingHeartRate data) >? 80)
  = true.
Proof.
  unfold calculateCardiovascularScore, restingHeartRateRule.
  destruct (present (restingHeartRate data)) eqn:P.
  - destruct (the (restingHeartRate data) >=? 100) eqn:E.
    + intros _. unfold gtb. unfold geb in E.
      now rewrite (FloatOrder.ltb_leb_trans 80 100 _ eq_refl E).
    + split_branches; intros H; vm_compute in H; discriminate H.
  - rewrite andb_false_r. intros H. vm_compute in H. discriminate H.
Qed.

(** X4: in the result of [calculateACMScore] the two cardiovascular tips
    come together or not at all: a cardiovascular score below 70 takes a
    resting heart rate of 100 or more, which is above the 80 that triggers
    the heart-rate tip. *)
Theorem heart_tips_come_together (data : HealthData) :
  In recMonitorHeart (recommendations (calculateACMScore data))
  <-> In recLowerRestingHeartRate (recommendations (calculateACMScore data)).
Proof.
  unfold calculateACMScore; cbv zeta; simpl recommendations.
  unfold generateRecommendations, push.
  cbn [cardiovascular metabolic activity lifestyle].
  destruct (Math_round (calculateCardiovascularScore data) <? 70) eqn:C.
  - rewrite (cardiovascular_below_70 data C).
    split; intros _; split_branches; simpl; auto.
  - split; intros H; exfalso; revert H;
      split_branches; apply not_in_by_eqb; vm_compute; reflexivity.
Qed.

Lemma heart_tips_come_together_witness :
  In recLowerRestingHeartRate (recommendations (calculateACMScore worstData)).
Proof.
  apply (proj1 (heart_tips_come_together worstData)).
  vm_compute. right. left. reflexivity.
Defined.

(** ** The completeness bonus *)

(** X6: the test for the completeness bonus, [completenessRatio >= 0.8]
    on the counter the [forEach] increments, holds exactly when at least
    five of the six metrics are non-null and above zero. *)
Theorem completeness_bonus_from_five (data : HealthData) :
  (dataCompletenessOf data / length_num (healthMetrics data) >=? 0.8)
  = Nat.leb 5 (positiveMetrics data).
Proof.
  unfold dataCompletenessOf, positiveMetrics, healthMetrics.
  cbn [fold_left filter]. unfold countMetric, isPositiveMetric.
  destruct (stepCount data) as [x1|], (heartRate data) as [x2|],
    (weight data) as [x3|], (height data) as [x4|],
    (restingHeartRate data) as [x5|], (activeEnergyBurned data) as [x6|];
    repeat match goal with
    | |- context [?x >? 0] => destruct (x >? 0)
    end; vm_compute; reflexivity.
Qed.

(** ** The calorie target *)

Lemma targetCalories_values data :
  In (targetCaloriesOf data) targetCaloriesValues.
Proof. unfold targetCaloriesOf. split_branches; in_values. Qed.

Lemma zero_energy_costs_30 data :
  (0 <? targetCaloriesOf data) = true
  /\ (activeEnergyBurned data = Some 0 ->
      (forall score,
          calorieRule (0 / targetCaloriesOf data) score = score - 30)
      /\ (calculateActivityScore data <=? 85) = true).
Proof.
  assert (H : forallb (fun t => (0 <? t) && Leibniz.eqb (0 / t) 0)
                targetCaloriesValues = true) by (vm_compute; reflexivity).
  rewrite forallb_forall in H. specialize (H _ (targetCalories_values data)).
  apply andb_true_iff in H. destruct H as [H1 H2].
  apply FloatAxioms.Leibniz.eqb_spec in H2.
  split; [exact H1|]. intros E. split.
  - intros score. rewrite H2. reflexivity.
  - unfold calculateActivityScore. rewrite E, H2.
    change (calorieRule 0 ?s) with (s - 30).
    destruct (stepCount data) as [steps|]; [|vm_compute; reflexivity].
    rewrite stepRule_live. split_branches; vm_compute; reflexivity.
Qed.

(** X7: the calorie target is one of six positive constants, so the activity
    scorer never divides by zero or NaN; an active energy of 0 is therefore
    a ratio of 0, costs 30 points and leaves an activity score of at most
    85. *)
Theorem targetCalories_positive (data : HealthData) :
  In (targetCaloriesOf data) targetCaloriesValues
  /\ (0 <? targetCaloriesOf data) = true
  /\ (activeEnergyBurned data = Some 0 ->
      (forall score,
          calorieRule (0 / targetCaloriesOf data) score = score - 30)
      /\ (calculateActivityScore data <=? 85) = true).
Proof.
  split; [apply targetCalories_values|apply zero_energy_costs_30].
Qed.

Lemma targetCalories_positive_witness :
  calorieRule (0 / targetCaloriesOf (energyOnly 0)) 100 = 100 - 30
  /\ (calculateActivityScore (energyOnly 0) <=? 85) = true.
Proof.
  destruct (proj2 (proj2 (targetCalories_positive (energyOnly 0))) eq_refl)
    as [A B].
  split; [apply A|exact B].
Defined.

(** ** Chains of comparisons against constants

    What one comparison of [x] with a constant settles about another: the
    side condition relates the two constants and is checked by evaluation. *)

Module Chains.

Section AboveOrAt.
Variables (a c x : number).
Hypothesis H : (a <=? x) = true.

Lemma ge_ge : (c <=? a) = true -> (c <=? x) = true.
Proof. intros K. exact (FloatOrder.leb_trans _ _ _ K H). Qed.

Lemma ge_not_lt : (c <=? a) = true -> (x <? c) = false.
Proof. intros K. apply FloatOrder.leb_not_ltb, (FloatOrder.leb_trans _ _ _ K H). Qed.

Lemma ge_gt : (c <? a) = true -> (c <? x) = true.
Proof. intros K. exact (FloatOrder.ltb_leb_trans _ _ _ K H). Qed.

Lemma ge_not_le : (c <? a) = true -> (x <=? c) = false.
Proof. intros K. apply FloatOrder.ltb_not_leb, (FloatOrder.ltb_leb_trans _ _ _ K H). Qed.
End AboveOrAt.

Section Above.
Variables (a c x : number).
Hypothesis H : (a <? x) = true.

Lemma gt_gt : (c <=? a) = true -> (c <? x) = true.
Proof. intros K. exact (FloatOrder.leb_ltb_trans _ _ _ K H). Qed.

Lemma gt_ge : (c <=? a) = true -> (c <=? x) = true.
Proof. intros K. apply FloatOrder.ltb_leb, (FloatOrder.leb_ltb_trans _ _ _ K H). Qed.

Lemma gt_not_le : (c <=? a) = true -> (x <=? c) = false.
Proof. intros K. apply FloatOrder.ltb_not_leb, (FloatOrder.leb_ltb_trans _ _ _ K H). Qed.

Lemma gt_not_lt : (c <=? a) = true -> (x <? c) = false.
Proof.
  intros K. apply FloatOrder.leb_not_ltb, FloatOrder.ltb_leb.
  exact (FloatOrder.leb_ltb_trans _ _ _ K H).
Qed.
End Above.

Section BelowOrAt.
Variables (a c x : number).
Hypothesis H : (x <=? a) = true.

Lemma le_le : (a <=? c) = true -> (x <=? c) = true.
Proof. intros K. exact (FloatOrder.leb_trans _ _ _ H K). Qed.

Lemma le_not_gt : (a <=? c) = true -> (c <? x) = false.
Proof. intros K. apply FloatOrder.leb_not_ltb, (FloatOrder.leb_trans _ _ _ H K). Qed.

Lemma le_lt : (a <? c) = true -> (x <? c) = true.
Proof. intros K. exact (FloatOrder.leb_ltb_trans _ _ _ H K). Qed.

Lemma le_not_ge : (a <? c) = true -> (c <=? x) = false.
Proof. intros K. apply FloatOrder.ltb_not_leb, (FloatOrder.leb_ltb_trans _ _ _ H K). Qed.
End BelowOrAt.

Section Below.
Variables (a c x : number).
Hypothesis H : (x <? a) = true.

Lemma lt_lt : (a <=? c) = true -> (x <? c) = true.
Proof. intros K. exact (FloatOrder.ltb_leb_trans _ _ _ H K). Qed.

Lemma lt_le : (a <=? c) = true -> (x <=? c) = true.
Proof. intros K. apply FloatOrder.ltb_leb, (FloatOrder.ltb_leb_trans _ _ _ H K). Qed.

Lemma lt_not_ge : (a <=? c) = true -> (c <=? x) = false.
Proof. intros K. apply FloatOrder.ltb_not_leb, (FloatOrder.ltb_leb_trans _ _ _ H K). Qed.

Lemma lt_not_gt : (a <=? c) = true -> (c <? x) = false.
Proof.
  intros K. apply FloatOrder.leb_not_ltb, FloatOrder.ltb_leb.
  exact (FloatOrder.ltb_leb_trans _ _ _ H K).
Qed.
End Below.

End Chains.

(** [settle H]: the goal is a comparison of [x] with a constant that the
    comparison [H] decides. *)
Ltac settle H :=
  first
  [ exact H
  | solve [apply (Chains.ge_ge _ _ _ H); reflexivity]
  | solve [apply (Chains.ge_not_lt _ _ _ H); reflexivity]
  | solve [apply (Chains.ge_gt _ _ _ H); reflexivity]
  | solve [apply (Chains.ge_not_le _ _ _ H); reflexivity]
  | solve [apply (Chains.gt_gt _ _ _ H); reflexivity]
  | solve [apply (Chains.gt_ge _ _ _ H); reflexivity]
  | solve [apply (Chains.gt_not_le _ _ _ H); reflexivity]
  | solve [apply (Chains.gt_not_lt _ _ _ H); reflexivity]
  | solve [apply (Chains.le_le _ _ _ H); reflexivity]
  | solve [apply (Chains.le_not_gt _ _ _ H); reflexivity]
  | solve [apply (Chains.le_lt _ _ _ H); reflexivity]
  | solve [apply (Chains.le_not_ge _ _ _ H); reflexivity]
  | solve [apply (Chains.lt_lt _ _ _ H); reflexivity]
  | solve [apply (Chains.lt_le _ _ _ H); reflexivity]
  | solve [apply (Chains.lt_not_ge _ _ _ H); reflexivity]
  | solve [apply (Chains.lt_not_gt _ _ _ H); reflexivity] ].

(** A number that passed a test is not NaN. *)
Ltac learn_numbers :=
  repeat match goal with
  | H : (_ <=? ?x) = true |- _ =>
      is_var x;
      lazymatch goal with
      | _ : is_nan x = false |- _ => fail
      | _ => pose proof (FloatOrder.leb_number_r _ _ H)
      end
  | H : (?x <=? _) = true |- _ =>
      is_var x;
      lazymatch goal with
      | _ : is_nan x = false |- _ => fail
      | _ => pose proof (FloatOrder.leb_number_l _ _ H)
      end
  | H : (_ <? ?x) = true |- _ =>
      is_var x;
      lazymatch goal with
      | _ : is_nan x = false |- _ => fail
      | _ => pose proof (FloatOrder.ltb_number_r _ _ H)
      end
  | H : (?x <? _) = true |- _ =>
      is_var x;
      lazymatch goal with
      | _ : is_nan x = false |- _ => fail
      | _ => pose proof (FloatOrder.ltb_number_l _ _ H)
      end
  end.

(** A failed test on a number is the opposite strict test. *)
Ltac flip_failed_tests :=
  learn_numbers;
  repeat match goal with
  | N : is_nan ?x = false, E : (?a <=? ?x) = false |- _ =>
      apply (FloatOrder.leb_total a x eq_refl N) in E
  | N : is_nan ?x = false, E : (?x <=? ?a) = false |- _ =>
      apply (FloatOrder.leb_total x a N eq_refl) in E
  | N : is_nan ?x = false, E : (?a <? ?x) = false |- _ =>
      apply (FloatOrder.ltb_total a x eq_refl N) in E
  | N : is_nan ?x = false, E : (?x <? ?a) = false |- _ =>
      apply (FloatOrder.ltb_total x a N eq_refl) in E
  end.

(** Walk a chain of tests on one number: a test the hypotheses decide is
    replaced by its value, any other is split. *)
Ltac settle_test c :=
  let E := fresh "E" in
  first
  [ assert (E : c = true) by (match goal with H : _ = true |- _ => settle H end);
    rewrite E; clear E
  | assert (E : c = false) by (match goal with H : _ = _ |- _ => settle H end);
    rewrite E; clear E
  | destruct c eqn:E; flip_failed_tests ].

Ltac walk_chain :=
  unfold geb, gtb in *; flip_failed_tests;
  repeat match goal with
  | |- context [if ?c && _ then _ else _] => settle_test c; cbn [andb]
  | |- context [if ?c then _ else _] => settle_test c
  end.

(** ** Card status against the scorer's chains *)

(** X8: the status of the step-count card and the step chain of the
    activity scorer cut at the same thresholds: excellent is +15, good is
    no adjustment, fair is -10, and poor (for a count that is not NaN) is
    -25 or -40; the status of a non-null count is never unknown. *)
Theorem stepCount_status_matches_rule (steps score : number) :
  let status := getMetricStatus (Some steps) "stepCount" in
  (status = excellent -> stepRule steps score = score + 15)
  /\ (status = good -> stepRule steps score = score)
  /\ (status = fair -> stepRule steps score = score - 10)
  /\ (status = poor -> is_nan steps = false ->
      stepRule steps score = score - 25 \/ stepRule steps score = score - 40)
  /\ status <> unknown.
Proof.
  cbv zeta. rewrite stepRule_live. unfold getMetricStatus.
  cbn [String.eqb Ascii.eqb Bool.eqb].
  repeat split; try intros S; try intros N; revert S;
    walk_chain; intros S; try discriminate S; auto.
Qed.

Lemma stepCount_status_matches_rule_witness :
  stepRule 12000 100 = 100 + 15 /\ stepRule 8000 100 = 100
  /\ stepRule 6000 100 = 100 - 10
  /\ (stepRule 10 100 = 100 - 25 \/ stepRule 10 100 = 100 - 40).
Proof.
  destruct (stepCount_status_matches_rule 12000 100) as [A _].
  destruct (stepCount_status_matches_rule 8000 100) as [_ [B _]].
  destruct (stepCount_status_matches_rule 6000 100) as [_ [_ [C _]]].
  destruct (stepCount_status_matches_rule 10 100) as [_ [_ [_ [D _]]]].
  split; [apply A; reflexivity|].
  split; [apply B; reflexivity|].
  split; [apply C; reflexivity|apply D; reflexivity].
Defined.

(** X9: the status of the BMI card against the chain for [data.bmi]:
    excellent is +10 and fair is -15; a BMI strictly between 24.9 and 25 is
    shown as poor and left unadjusted, and one strictly between 29.9 and 30
    is shown as poor and costs 15. *)
Theorem bmi_status_matches_rule (b score : number) :
  let status := getMetricStatus (Some b) "bmi" in
  (status = excellent -> bmiRule b score = score + 10)
  /\ (status = fair -> bmiRule b score = score - 15)
  /\ ((24.9 <? b) = true -> (b <? 25) = true ->
      status = poor /\ bmiRule b score = score)
  /\ ((29.9 <? b) = true -> (b <? 30) = true ->
      status = poor /\ bmiRule b score = score - 15).
Proof.
  cbv zeta. unfold getMetricStatus, bmiRule.
  cbn [String.eqb Ascii.eqb Bool.eqb].
  split; [|split; [|split]].
  - intros S; revert S; walk_chain; intros S; try discriminate S; auto.
  - intros S; revert S; walk_chain; intros S; try discriminate S; auto.
  - intros L U. walk_chain. auto.
  - intros L U. walk_chain. auto.
Qed.

Lemma bmi_status_matches_rule_witness :
  bmiRule 22 100 = 100 + 10 /\ bmiRule 27 100 = 100 - 15
  /\ (getMetricStatus (Some 24.95) "bmi" = poor /\ bmiRule 24.95 100 = 100)
  /\ (getMetricStatus (Some 29.95) "bmi" = poor
      /\ bmiRule 29.95 100 = 100 - 15).
Proof.
  destruct (bmi_status_matches_rule 22 100) as [A _].
  destruct (bmi_status_matches_rule 27 100) as [_ [B _]].
  destruct (bmi_status_matches_rule 24.95 100) as [_ [_ [C _]]].
  destruct (bmi_status_matches_rule 29.95 100) as [_ [_ [_ D]]].
  split; [apply A; reflexivity|].
  split; [apply B; reflexivity|].
  split; [apply C; reflexivity|apply D; reflexivity].
Defined.



(** ** The rings *)

Lemma overall_is_number data :
  is_nan (overall (calculateACMScore data)) = false.
Proof.
  pose proof (scoreOk_inRange _ (overall_ok data)) as H.
  unfold inRange in H. apply andb_true_iff in H. destruct H as [H _].
  exact (FloatOrder.leb_number_r _ _ H).
Qed.

Lemma caption_of_number (score : ACMScore) :
  is_nan (overall score) = false ->
  healthScoreRingCaption score
  = [tierCaption (determineRiskLevel (overall score))].
Proof.
  unfold healthScoreRingCaption, determineRiskLevel. cbv zeta.
  generalize (overall score). intros s N.
  walk_chain; reflexivity.
Qed.

(** X11: for a score that is not NaN the ring renders exactly one of its
    four captions, the one of the tier [determineRiskLevel] gives the
    score; for a result of [calculateACMScore] the caption and the ring
    colour are those of its [riskLevel]; captions and risk descriptions
    tell the four tiers apart. *)
Theorem ring_shows_one_tier :
  (forall score : ACMScore,
      is_nan (overall score) = false ->
      healthScoreRingCaption score
      = [tierCaption (determineRiskLevel (overall score))])
  /\ (forall data,
        let score := calculateACMScore data in
        healthScoreRingCaption score = [tierCaption (riskLevel score)]
        /\ borderTopColor (healthScoreRingBorders score)
           = tierColor (riskLevel score))
  /\ (forall t u, tierCaption t = tierCaption u -> t = u)
  /\ (forall t u,
        getRiskLevelDescription t = getRiskLevelDescription u -> t = u).
Proof.
  split; [exact caption_of_number|].
  split.
  { intros data. cbv zeta. split.
    - rewrite (caption_of_number _ (overall_is_number data)). reflexivity.
    - unfold healthScoreRingBorders. cbn [borderTopColor].
      unfold calculateACMScore; cbv zeta; cbn [overall riskLevel].
      unfold getScoreColor, determineRiskLevel.
      split_branches; reflexivity. }
  split; intros [] []; simpl; intros H; try reflexivity; discriminate H.
Qed.

Lemma ring_shows_one_tier_witness :
  healthScoreRingCaption (calculateACMScore emptyData)
  = [tierCaption (determineRiskLevel (overall (calculateACMScore emptyData)))]
  /\ low = low.
Proof.
  destruct ring_shows_one_tier as [A [_ [B _]]].
  split; [apply A; reflexivity|apply B; reflexivity].
Defined.

(** X12: the rings fill in order: in [MiniHealthRing] a coloured left
    quadrant implies a coloured bottom quadrant, which implies a coloured
    right quadrant; in [HealthScoreRing] the right quadrant is always
    coloured and a coloured left one implies a coloured bottom one; the
    colour a metric card passes to its ring is never empty, so the
    fallback of [color || getScoreColor(score)] is never taken there and
    every coloured quadrant of that ring has the colour of the card's
    status. *)
Theorem rings_fill_in_order :
  (forall score color,
      let b := miniHealthRingBorders score color in
      (borderLeftColor b <> transparent ->
       borderBottomColor b = borderTopColor b)
      /\ (borderBottomColor b <> transparent ->
          borderRightColor b = borderTopColor b))
  /\ (forall score : ACMScore,
        let b := healthScoreRingBorders score in
        borderRightColor b = borderTopColor b
        /\ (borderLeftColor b <> transparent ->
            borderBottomColor b = borderTopColor b))
  /\ (forall status score fallback,
        truthyString (Some (color (statusConfig status))) = true
        /\ orElse (Some (color (statusConfig status))) fallback
           = color (statusConfig status)
        /\ metricCardRing status score
           = mkRingBorders (color (statusConfig status))
               (if score >? 25 then color (statusConfig status)
                else transparent)
               (if score >? 50 then color (statusConfig status)
                else transparent)
               (if score >? 75 then color (statusConfig status)
                else transparent)).
Proof.
  split; [|split].
  - intros score color0. cbv zeta. unfold miniHealthRingBorders.
    cbn [borderTopColor borderRightColor borderBottomColor borderLeftColor].
    unfold gtb. split; intros H.
    + destruct (75 <? score) eqn:E; [|exfalso; apply H; reflexivity].
      now rewrite (Chains.gt_gt 75 50 score E eq_refl).
    + destruct (50 <? score) eqn:E; [|exfalso; apply H; reflexivity].
      now rewrite (Chains.gt_gt 50 25 score E eq_refl).
  - intros score. cbv zeta. unfold healthScoreRingBorders.
    cbn [borderTopColor borderRightColor borderBottomColor borderLeftColor].
    unfold gtb. split; [reflexivity|]. intros H.
    destruct (75 <? overall score) eqn:E; [|exfalso; apply H; reflexivity].
    now rewrite (Chains.gt_gt 75 50 _ E eq_refl).
  - intros [] score fallback; repeat split; reflexivity.
Qed.

Lemma rings_fill_in_order_witness :
  borderBottomColor (miniHealthRingBorders 80 None)
  = borderTopColor (miniHealthRingBorders 80 None)
  /\ borderRightColor (miniHealthRingBorders 80 None)
     = borderTopColor (miniHealthRingBorders 80 None)
  /\ borderBottomColor (healthScoreRingBorders (calculateACMScore emptyData))
     = borderTopColor (healthScoreRingBorders (calculateACMScore emptyData)).
Proof.
  destruct rings_fill_in_order as [M [R _]].
  destruct (M 80 None) as [M1 M2]. destruct (R (calculateACMScore emptyData)) as [_ R2].
  split; [apply M1; vm_compute; discriminate|].
  split; [apply M2; vm_compute; discriminate|].
  apply R2; vm_compute; discriminate.
Defined.

(** ** Data acquisition *)

Import Hook.

(** X13: a sample query without error resolves to the value of the last
    sample of a non-empty array; a non-empty error string rejects with that
    string whatever the results, for sample and single-value queries
    alike; an empty error string counts as no error. *)
Theorem latest_sample_is_last :
  (forall results x,
      latestSampleCallback None (Some (results ++ [x])) = fulfilled (value x))
  /\ (forall e results,
        e <> ""%string -> latestSampleCallback (Some e) results = rejected e)
  /\ (forall results,
        latestSampleCallback (Some ""%string) results
        = latestSampleCallback None results)
  /\ (forall e result,
        e <> ""%string -> latestValueCallback (Some e) result = rejected e).
Proof.
  split; [|split; [|split]].
  - intros results x. unfold latestSampleCallback.
    destruct results as [|r rs]; [reflexivity|].
    cbn [app]. now rewrite last_last.
  - intros e results He. unfold latestSampleCallback, truthyString.
    destruct (String.eqb_spec e ""); [contradiction|reflexivity].
  - intros results. reflexivity.
  - intros e result He. unfold latestValueCallback, truthyString.
    destruct (String.eqb_spec e ""); [contradiction|reflexivity].
Qed.

Lemma latest_sample_is_last_witness :
  latestSampleCallback (Some "denied"%string) None = rejected "denied"%string
  /\ latestValueCallback (Some "denied"%string) (mkHealthValue 1)
     = rejected "denied"%string.
Proof.
  destruct latest_sample_is_last as [_ [A [_ B]]].
  split; [apply A; discriminate|apply B; discriminate].
Defined.

(** X14: a heart-rate or resting-heart-rate query that returns no sample
    (a null or empty array) resolves to 0 and is scored exactly like a
    rejected query, whatever the other eight queries gave; an active-energy
    query without sample is scored as 0 kcal and caps the activity score at
    85, where a rejected one (with steps rejected too) leaves it at 100. *)
Theorem no_samples_scored_as_failure
    (stepCount heartRate restingHeartRate weight height bmi
       activeEnergyBurned : Settled number)
    (biologicalSex : Settled BiologicalSex) (age : Settled number)
    (results : option (list HealthValue)) (reason : string) :
  results = None \/ results = Some [] ->
  let none := latestSampleCallback None results in
  calculateACMScore
    (assembleData stepCount none restingHeartRate weight height bmi
       activeEnergyBurned biologicalSex age)
  = calculateACMScore
      (assembleData stepCount (rejected reason) restingHeartRate weight
         height bmi activeEnergyBurned biologicalSex age)
  /\ calculateACMScore
       (assembleData stepCount heartRate none weight height bmi
          activeEnergyBurned biologicalSex age)
     = calculateACMScore
         (assembleData stepCount heartRate (rejected reason) weight height
            bmi activeEnergyBurned biologicalSex age)
  /\ (calculateActivityScore
        (assembleData stepCount heartRate restingHeartRate weight height bmi
           none biologicalSex age) <=? 85) = true
  /\ calculateActivityScore
       (assembleData (rejected reason) heartRate restingHeartRate weight
          height bmi (rejected reason) biologicalSex age) = 100.
Proof.
  intros Hr. cbv zeta.
  assert (E : latestSampleCallback None results = fulfilled 0)
    by (destruct Hr; subst; reflexivity).
  rewrite E. split; [|split; [|split]].
  - apply calculateACMScore_ext; reflexivity.
  - apply calculateACMScore_ext; try reflexivity.
    exact (cardiovascular_zero_restingHeartRate
             (assembleData stepCount heartRate (rejected reason) weight
                height bmi activeEnergyBurned biologicalSex age)).
  - apply (proj2 (zero_energy_costs_30 _)). reflexivity.
  - reflexivity.
Qed.

Lemma no_samples_scored_as_failure_witness :
  (calculateActivityScore
     (assembleData (rejected "x") (rejected "x") (rejected "x") (rejected "x")
        (rejected "x") (rejected "x") (latestSampleCallback None (Some []))
        (rejected "x") (rejected "x")) <=? 85) = true.
Proof.
  apply (no_samples_scored_as_failure (rejected "x") (rejected "x")
           (rejected "x") (rejected "x") (rejected "x") (rejected "x")
           (rejected "x") (rejected "x") (rejected "x") (Some []) "x").
  right; reflexivity.
Defined.

(** ** The screen *)

(** X15: after a failed initialisation the screen is the permission
    prompt, not the error view, although the state holds an error message;
    once permission is granted and the queries have settled the screen is
    the dashboard for the fetched snapshot, whatever the previous state
    held; if all nine queries were rejected that dashboard shows 100, low
    risk and the two generic recommendations. *)
Theorem screen_after_hook_updates (prev : HealthDataState) :
  screenContent (onInitError prev) = PermissionView
  /\ (forall fetched,
        screenContent
          (onFetchSettled fetched (onFetchStart (onInitSuccess prev)))
        = DashboardView (calculateACMScore fetched))
  /\ (forall r1 r2 r3 r4 r5 r6 r7 r8 r9,
        screenContent
          (onFetchSettled
             (assembleData (rejected r1) (rejected r2) (rejected r3)
                (rejected r4) (rejected r5) (rejected r6) (rejected r7)
                (rejected r8) (rejected r9))
             (onFetchStart (onInitSuccess prev)))
        = DashboardView
            (mkACMScore 100 (mkBreakdown 100 100 100 100) low
               [recKeepItUp; recKeepMonitoring])).
Proof.
  split; [reflexivity|]. split; [reflexivity|].
  intros. change (assembleData _ _ _ _ _ _ _ _ _) with emptyData.
  unfold screenContent, onFetchSettled, onFetchStart, onInitSuccess.
  cbn [data loading error hasPermissions negb truthyString].
  vm_compute. reflexivity.
Qed.

(** ** What the engine does not look at *)

(** X16: the engine never reads the blood-pressure fields: whatever they
    hold, the result is that of the snapshot without them. *)
Theorem blood_pressure_ignored (data : HealthData)
    (systolic diastolic : option number) :
  calculateACMScore (setBloodPressure systolic diastolic data)
  = calculateACMScore data.
Proof. apply calculateACMScore_ext; reflexivity. Qed.

(** X17: a biological sex of other is scored exactly like female: only
    male changes the ideal weight, the calorie target and the lifestyle
    score. *)
Theorem other_scored_as_female (data : HealthData) :
  calculateACMScore (setBiologicalSex (Some other) data)
  = calculateACMScore (setBiologicalSex (Some female) data).
Proof. apply calculateACMScore_ext; reflexivity. Qed.

(** X18: the cut to four entries drops the activity advice: when the
    cardiovascular and metabolic blocks both hold two strings, the list is
    these four, whatever the activity and lifestyle scores are. *)
Theorem activity_advice_cut (data : HealthData) (b : Breakdown) :
  (cardiovascular b <? 70) = true -> above (restingHeartRate data) 80 = true ->
  (metabolic b <? 70) = true -> above (bmi data) 25 = true ->
  generateRecommendations data b
  = [recLowerRestingHeartRate; recMonitorHeart;
     recControlWeight; recBalancedDiet].
Proof.
  intros Hc Hr Hm Hb. unfold generateRecommendations.
  rewrite !present_above by reflexivity. rewrite Hc, Hr, Hm, Hb.
  unfold push. split_branches; reflexivity.
Qed.

Lemma activity_advice_cut_witness :
  generateRecommendations worstData (mkBreakdown 65 50 30 80)
  = [recLowerRestingHeartRate; recMonitorHeart;
     recControlWeight; recBalancedDiet]
  /\ (activity (mkBreakdown 65 50 30 80) <? 70) = true.
Proof.
  split; [|reflexivity].
  apply activity_advice_cut; reflexivity.
Defined.
